(** * Bioreactor handle survey: the statistics pipeline of
      [BioreactorHandleAnalysis.jsx]

    A shallow embedding of the computation the component runs once the
    survey rows are parsed: descriptive statistics, confidence intervals,
    pairwise t-tests, Cohen's d, the weighted aggregate scores and the
    attempt-field cleanup of the parsed rows.

    JavaScript numbers are IEEE 754 binary64 values; they are modelled by
    Rocq's primitive [float], whose operations are specified against
    [SpecFloat] by [FloatAxioms]. *)

From Stdlib Require Import ZArith Floats String Ascii List Bool Lia.
From Stdlib Require DecimalString.
From stdpp Require Import gmap strings list.

Import ListNotations.
Local Open Scope string_scope.

#[local] Set Warnings "-inexact-float".

(** ** Exceptions

    mathjs signals misuse by throwing; a computation that may throw
    returns a [result]. *)

Inductive exn : Type :=
  | Error (message : string)
  | SyntaxError (message : string).

Inductive result (A : Type) : Type :=
  | Ok (a : A)
  | Throw (e : exn).

Arguments Ok {A} a.
Arguments Throw {A} e.

#[global] Instance result_ret : MRet result := fun A a => Ok a.

#[global] Instance result_bind : MBind result := fun A B k r =>
  match r with
  | Ok a => k a
  | Throw e => Throw e
  end.

Definition returns {A : Type} (r : result A) : Prop :=
  exists a, r = Ok a.

Definition throws {A : Type} (r : result A) : Prop :=
  exists e, r = Throw e.

(** ** Numbers *)

Definition number := float.

(** The number with the value of an integer, rounded to nearest-even. *)
Definition of_Z (z : Z) : number :=
  SF2Prim (binary_normalize prec emax z 0%Z false).

Definition of_nat (n : nat) : number := of_Z (Z.of_nat n).

(** The built-in [Math] object, as far as the component uses it. *)
Module Math.

Definition abs (x : number) : number := PrimFloat.abs x.

Definition sqrt (x : number) : number := PrimFloat.sqrt x.

Definition is_pos_zero (x : number) : bool :=
  (x =? 0)%float && negb (get_sign x).

Definition is_neg_zero (x : number) : bool :=
  (x =? 0)%float && get_sign x.

(** One round of the loop of [Math.max]: [highest] is the running
    maximum, [-Infinity] at the start. *)
Definition max_step (highest x : number) : number :=
  let highest :=
    if is_pos_zero x && is_neg_zero highest then x else highest in
  if (highest <? x)%float then x else highest.

Fixpoint max_from (highest : number) (args : list number) : number :=
  match args with
  | [] => highest
  | x :: rest =>
      if is_nan x then nan else max_from (max_step highest x) rest
  end.

(** [Math.max(...args)]: NaN as soon as an argument is NaN. *)
Definition max (args : list number) : number :=
  max_from neg_infinity args.

End Math.

(** ** mathjs

    The functions [math.mean], [math.variance] and [math.std] of the
    library, on arrays of plain numbers and called with one argument as
    the component does.  With no [normalization] given, mathjs uses
    ['unbiased']: the sum of squared deviations is divided by [n - 1],
    and the variance of a single value is 0. *)
Module math.

(** [deepForEach] with [sum = sum === undefined ? value : add(sum, value)]. *)
Definition accumulate (sum : option number) (value : number) : option number :=
  match sum with
  | None => Some value
  | Some s => Some (s + value)%float
  end.

Definition total (array : list number) : option number :=
  fold_left accumulate array None.

Definition mean (array : list number) : result number :=
  match total array with
  | None => Throw (Error "Cannot calculate the mean of an empty array")
  | Some sum => Ok (sum / of_nat (length array))%float
  end.

Definition variance (array : list number) : result number :=
  match array with
  | [] =>
      Throw (SyntaxError
        "Function variance requires one or more parameters (0 provided)")
  | _ =>
      match total array with
      | None => Throw (Error "Cannot calculate variance of an empty array")
      | Some s =>
          let num := length array in
          let mean := (s / of_nat num)%float in
          let squares :=
            map (fun value => let diff := (value - mean)%float in
                              (diff * diff)%float) array in
          match total squares with
          | None => Throw (Error "Cannot calculate variance of an empty array")
          | Some sum =>
              if is_nan sum then Ok sum
              else if (num =? 1)%nat then Ok 0%float
              else Ok (sum / of_nat (num - 1))%float
          end
      end
  end.

Definition std (array : list number) : result number :=
  match array with
  | [] =>
      Throw (SyntaxError
        "Function std requires one or more parameters (0 provided)")
  | _ =>
      v ← variance array;
      Ok (Math.sqrt v)
  end.

End math.

(** ** Descriptive statistics and pairwise comparisons *)

Record Stats : Type := mkStats {
  mean : number;
  stdDev : number;
  n : nat
}.

Arguments mkStats (mean stdDev)%_float n%_nat.

(** [calculateStats]: the guard returns the zero record for an empty
    array, so neither mathjs call is reached with one. *)
Definition calculateStats (arr : list number) : result Stats :=
  if (length arr =? 0)%nat then Ok (mkStats 0 0 0)
  else
    mean ← math.mean arr;
    stdDev ← math.std arr;
    Ok (mkStats mean stdDev (length arr)).

(** [calculateCI]: the 95% interval [[low, high]] as a pair. *)
Definition calculateCI (mean stdDev : number) (n : nat) : number * number :=
  if (n <=? 1)%nat then (0, 0)%float
  else
    let marginOfError := (1.96 * (stdDev / Math.sqrt (of_nat n)))%float in
    ((mean - marginOfError)%float, (mean + marginOfError)%float).

Arguments calculateCI (mean stdDev)%_float n%_nat.

Record TTest : Type := mkTTest {
  t : number;
  pValue : string
}.

(** The [if]/[else if] chain of [tTest] that picks [pValue] from [t]. *)
Definition pValueOf (t : number) : string :=
  if (2.7 <? Math.abs t)%float then "< 0.01"
  else if (2.0 <? Math.abs t)%float then "< 0.05"
  else "> 0.05".

Definition tTest (arr1 arr2 : list number) : result TTest :=
  if (length arr1 =? 0)%nat || (length arr2 =? 0)%nat
  then Ok (mkTTest 0%float "> 0.05")
  else
    mean1 ← math.mean arr1;
    mean2 ← math.mean arr2;
    var1 ← math.variance arr1;
    var2 ← math.variance arr2;
    let n1 := of_nat (length arr1) in
    let n2 := of_nat (length arr2) in
    let t := ((mean1 - mean2) / Math.sqrt ((var1 / n1) + (var2 / n2)))%float in
    let pValue := pValueOf t in
    Ok (mkTTest t pValue).

Definition cohenD (arr1 arr2 : list number) : result number :=
  if (length arr1 =? 0)%nat || (length arr2 =? 0)%nat
  then Ok 0%float
  else
    mean1 ← math.mean arr1;
    mean2 ← math.mean arr2;
    let n1 := of_nat (length arr1) in
    let n2 := of_nat (length arr2) in
    s1 ← math.std arr1;
    s2 ← math.std arr2;
    let pooledSD :=
      Math.sqrt (((n1 - 1) * s1 * s1 + (n2 - 1) * s2 * s2) / (n1 + n2 - 2))%float in
    Ok (Math.abs (mean1 - mean2) / pooledSD)%float.

Definition interpretCohenD (d : number) : string :=
  if (d <? 0.2)%float then "Negligible"
  else if (d <? 0.5)%float then "Small"
  else if (d <? 0.8)%float then "Medium"
  else "Large".

Arguments interpretCohenD d%_float.
Arguments pValueOf t%_float.

(** ** Values and rows

    A parsed row is an object from column names to values.  With
    [dynamicTyping] the parser yields numbers, booleans, strings and
    [null] for an empty cell; a column the line does not reach is absent,
    and reading it gives [undefined]. *)

Inductive value : Type :=
  | VUndefined
  | VNull
  | VBool (b : bool)
  | VNum (x : number)
  | VStr (s : string).

Arguments VNum x%_float.

Abbreviation Row := (gmap string value).

(** [row[key]] *)
Definition get (row : Row) (key : string) : value :=
  default VUndefined (row !! key).

Definition truthy_number (x : number) : bool :=
  negb (is_nan x || (x =? 0)%float).

(** [ToBoolean] *)
Definition truthy (v : value) : bool :=
  match v with
  | VUndefined | VNull => false
  | VBool b => b
  | VNum x => truthy_number x
  | VStr s => negb (String.eqb s "")
  end.

(** [a || b] *)
Definition or_else (a b : value) : value :=
  if truthy a then a else b.

(** *** Digits *)

Definition is_digit (c : ascii) : bool :=
  let k := N_of_ascii c in (48 <=? k)%N && (k <=? 57)%N.

Definition digit_value (c : ascii) : Z :=
  (Z.of_N (N_of_ascii c) - 48)%Z.

(** The integer a run of decimal digits denotes. *)
Fixpoint digits_from (acc : Z) (digits : string) : Z :=
  match digits with
  | EmptyString => acc
  | String c rest => digits_from (10 * acc + digit_value c)%Z rest
  end.

Definition digits_value (digits : string) : Z := digits_from 0%Z digits.

(** The longest prefix of decimal digits, and what follows it. *)
Fixpoint span_digits (s : string) : string * string :=
  match s with
  | EmptyString => (EmptyString, EmptyString)
  | String c rest =>
      if is_digit c then
        let (run, tail) := span_digits rest in (String c run, tail)
      else (EmptyString, s)
  end.

(** *** ToNumber

    [*] and [-] convert their operands with [ToNumber]; on a string that
    is [StringToNumber]: white space is trimmed, the empty string is 0,
    and the rest must be a [StrNumericLiteral].  A [string] holds the
    UTF-8 bytes of the text, so a white space character ([WhiteSpace] or
    [LineTerminator]) is one, two or three bytes long. *)

(** TAB, LF, VT, FF, CR and SP. *)
Definition is_white_space (c : ascii) : bool :=
  let k := N_of_ascii c in ((9 <=? k) && (k <=? 13) || (k =? 32))%N.

(** U+00A0, the no-break space: [C2 A0]. *)
Definition is_white_space2 (c1 c2 : ascii) : bool :=
  ((N_of_ascii c1 =? 194) && (N_of_ascii c2 =? 160))%N.

(** U+1680 [E1 9A 80]; U+2000 to U+200A, U+2028, U+2029 and U+202F
    [E2 80 80..8A, A8, A9, AF]; U+205F [E2 81 9F]; U+3000 [E3 80 80];
    U+FEFF [EF BB BF]. *)
Definition is_white_space3 (c1 c2 c3 : ascii) : bool :=
  let k1 := N_of_ascii c1 in
  let k2 := N_of_ascii c2 in
  let k3 := N_of_ascii c3 in
  ((k1 =? 225) && (k2 =? 154) && (k3 =? 128) ||
   (k1 =? 226) && (k2 =? 128) &&
     ((128 <=? k3) && (k3 <=? 138) || (k3 =? 168) || (k3 =? 169) ||
      (k3 =? 175)) ||
   (k1 =? 226) && (k2 =? 129) && (k3 =? 159) ||
   (k1 =? 227) && (k2 =? 128) && (k3 =? 128) ||
   (k1 =? 239) && (k2 =? 187) && (k3 =? 191))%N.

(** Drops the white space characters at the start of [s]; [two] and
    [three] recognise the characters of two and of three bytes. *)
Fixpoint trim_with (two : ascii -> ascii -> bool)
  (three : ascii -> ascii -> ascii -> bool) (s : string) : string :=
  match s with
  | EmptyString => EmptyString
  | String c1 rest1 =>
      if is_white_space c1 then trim_with two three rest1
      else
        match rest1 with
        | String c2 rest2 =>
            if two c1 c2 then trim_with two three rest2
            else
              match rest2 with
              | String c3 rest3 =>
                  if three c1 c2 c3 then trim_with two three rest3 else s
              | EmptyString => s
              end
        | EmptyString => s
        end
  end.

Fixpoint reverse_onto (acc s : string) : string :=
  match s with
  | EmptyString => acc
  | String c rest => reverse_onto (String c acc) rest
  end.

Definition reverse (s : string) : string := reverse_onto EmptyString s.

Definition trim_start (s : string) : string :=
  trim_with is_white_space2 is_white_space3 s.

(** The same from the end, reading the bytes backwards. *)
Definition trim_end (s : string) : string :=
  reverse
    (trim_with (fun c2 c1 => is_white_space2 c1 c2)
       (fun c3 c2 c1 => is_white_space3 c1 c2 c3) (reverse s)).

(** The number nearest to [(-1)^negative * m * 10^e10]. *)
Definition decimal_number (negative : bool) (m e10 : Z) : number :=
  match m with
  | Zpos p =>
      if (0 <=? e10)%Z then
        SF2Prim (binary_normalize prec emax
                   (cond_Zopp negative (m * 10 ^ e10)%Z) 0%Z false)
      else
        SF2Prim (SFdiv prec emax
                   (S754_finite negative p 0%Z)
                   (S754_finite false (Z.to_pos (10 ^ (- e10))%Z) 0%Z))
  | _ => if negative then (-0)%float else 0%float
  end.

(** [ExponentPart], or nothing; no other text may follow. *)
Definition exponent_part (s : string) : option Z :=
  match s with
  | EmptyString => Some 0%Z
  | String c rest =>
      if Ascii.eqb c "e" || Ascii.eqb c "E" then
        let '(negative, rest) :=
          match rest with
          | String d rest' =>
              if Ascii.eqb d "+" then (false, rest')
              else if Ascii.eqb d "-" then (true, rest')
              else (false, rest)
          | EmptyString => (false, rest)
          end in
        let (run, tail) := span_digits rest in
        if String.eqb run "" || negb (String.eqb tail "") then None
        else Some (cond_Zopp negative (digits_value run))
      else None
  end.

(** [StrUnsignedDecimalLiteral] other than [Infinity]: the digits read as
    one integer, and the power of ten that scales it. *)
Definition unsigned_decimal (s : string) : option (Z * Z) :=
  let (int_part, after_int) := span_digits s in
  let (frac_part, after_frac) :=
    match after_int with
    | String c rest =>
        if Ascii.eqb c "." then span_digits rest else (EmptyString, after_int)
    | EmptyString => (EmptyString, after_int)
    end in
  if String.eqb int_part "" && String.eqb frac_part "" then None
  else
    match exponent_part after_frac with
    | Some e =>
        Some (digits_value (int_part ++ frac_part),
              (e - Z.of_nat (String.length frac_part))%Z)
    | None => None
    end.

Definition radix_digit (radix : Z) (c : ascii) : option Z :=
  let k := Z.of_N (N_of_ascii c) in
  let d :=
    (if is_digit c then k - 48
     else if (97 <=? k) && (k <=? 102) then k - 87
     else if (65 <=? k) && (k <=? 70) then k - 55
     else radix)%Z in
  if (d <? radix)%Z then Some d else None.

Fixpoint radix_from (radix acc : Z) (s : string) : option Z :=
  match s with
  | EmptyString => Some acc
  | String c rest =>
      match radix_digit radix c with
      | Some d => radix_from radix (radix * acc + d)%Z rest
      | None => None
      end
  end.

(** [NonDecimalIntegerLiteral]: [0x], [0o] or [0b] and at least one digit. *)
Definition non_decimal (s : string) : option Z :=
  match s with
  | String z (String p (String c rest)) =>
      if Ascii.eqb z "0" then
        let digits := String c rest in
        if Ascii.eqb p "x" || Ascii.eqb p "X" then radix_from 16%Z 0%Z digits
        else if Ascii.eqb p "o" || Ascii.eqb p "O" then radix_from 8%Z 0%Z digits
        else if Ascii.eqb p "b" || Ascii.eqb p "B" then radix_from 2%Z 0%Z digits
        else None
      else None
  | _ => None
  end.

Definition StringToNumber (s : string) : number :=
  let text := trim_end (trim_start s) in
  if String.eqb text "" then 0%float
  else
    match non_decimal text with
    | Some z => of_Z z
    | None =>
        let '(negative, unsigned) :=
          match text with
          | String c rest =>
              if Ascii.eqb c "+" then (false, rest)
              else if Ascii.eqb c "-" then (true, rest)
              else (false, text)
          | EmptyString => (false, text)
          end in
        if String.eqb unsigned "Infinity" then
          if negative then neg_infinity else infinity
        else
          match unsigned_decimal unsigned with
          | Some (m, e10) => decimal_number negative m e10
          | None => nan
          end
    end.

Definition ToNumber (v : value) : number :=
  match v with
  | VUndefined => nan
  | VNull => 0%float
  | VBool b => if b then 1%float else 0%float
  | VNum x => x
  | VStr s => StringToNumber s
  end.

(** ** The cleanup of the parsed rows ([fetchData]) *)

Definition attemptFields : list string :=
  ["Number of Attempts"; "Number of Attempts_1"; "Number of Attempts_2"].

(** [s.match(/^\d+/)]: the digits the string starts with, if any. *)
Definition leadingDigits (s : string) : option string :=
  let (run, _) := span_digits s in
  if String.eqb run "" then None else Some run.

(** [parseInt(digits, 10)] on a run of decimal digits. *)
Definition parseInt10 (digits : string) : number :=
  of_Z (digits_value digits).

(** The body of [attemptFields.forEach]: the assignment [row[field] = ...]
    happens only under both [if]s. *)
Definition cleanField (row : Row) (field : string) : Row :=
  match get row field with
  | VStr s =>
      if truthy (VStr s) then
        match leadingDigits s with
        | Some numericPart => <[field := VNum (parseInt10 numericPart)]> row
        | None => row
        end
      else row
  | _ => row
  end.

Definition cleanRow (row : Row) : Row :=
  fold_left cleanField attemptFields row.

Definition cleanData (data : list Row) : list Row :=
  map cleanRow data.

(** ** Aggregate scores *)

Record Score : Type := mkScore {
  participantId : value;
  rectangleScore : number;
  curvedScore : number;
  circleScore : number;
  topChoice : string
}.

Definition maxAttempts : number := 5%float.

(** [row[field] ? (maxAttempts - row[field]) : 0] *)
Definition invertedAttempts (row : Row) (field : string) : number :=
  if truthy (get row field) then (maxAttempts - ToNumber (get row field))%float
  else 0%float.

(** [row[field] || 0], as the multiplication reads it. *)
Definition metric (row : Row) (field : string) : number :=
  ToNumber (or_else (get row field) (VNum 0)).

Definition scoreRow (row : Row) : Score :=
  let rectAttempts := invertedAttempts row "Number of Attempts" in
  let curvedAttempts := invertedAttempts row "Number of Attempts_1" in
  let circleAttempts := invertedAttempts row "Number of Attempts_2" in
  let rectangleScore :=
    ((1.5 * metric row "Positioning Accuracy" +
      1.0 * rectAttempts +
      1.2 * metric row "Comfort" +
      1.0 * metric row "Grip Security" +
      1.0 * metric row "Ease of Use" +
      0.8 * metric row "Intuitiveness " +
      1.5 * metric row "Overall Satisfaction") / 8.0)%float in
  let curvedScore :=
    ((1.5 * metric row "Positioning Accuracy_1" +
      1.0 * curvedAttempts +
      1.2 * metric row "Comfort_1" +
      1.0 * metric row "Grip Security_1" +
      1.0 * metric row "Ease of Use_1" +
      0.8 * metric row "Intuitiveness _1" +
      1.5 * metric row "Overall Satisfaction_1") / 8.0)%float in
  let circleScore :=
    ((1.5 * metric row "Positioning Accuracy_2" +
      1.0 * circleAttempts +
      1.2 * metric row "Comfort_2" +
      1.0 * metric row "Grip Security_2" +
      1.0 * metric row "Ease of Use_2" +
      0.8 * metric row "Intuitiveness _2" +
      1.5 * metric row "Overall Satisfaction_2") / 8.0)%float in
  let highest := Math.max [rectangleScore; curvedScore; circleScore] in
  mkScore
    (or_else (get row "  Please enter your assigned participant ID:")
             (VStr "Unknown"))
    rectangleScore curvedScore circleScore
    (if (highest =? rectangleScore)%float then "Rectangle Handle"
     else if (highest =? curvedScore)%float then "Curved Handle"
     else "Circle Undergrip Handle").

(** One entry per handle, as in the object literals keyed by handle name. *)
Record PerHandle (A : Type) : Type := mkPerHandle {
  rectangle_handle : A;
  curved_handle : A;
  circle_handle : A
}.

Arguments mkPerHandle {A} _ _ _.
Arguments rectangle_handle {A} _.
Arguments curved_handle {A} _.
Arguments circle_handle {A} _.

Record AggregateScores : Type := mkAggregateScores {
  average : PerHandle number;
  topChoiceCounts : PerHandle nat;
  detail : list Score
}.

(** [scores.filter(s => s.topChoice === handle).length] *)
Definition countTopChoice (handle : string) (scores : list Score) : nat :=
  length (List.filter (fun s => String.eqb (topChoice s) handle) scores).

Definition tallyTopChoices (scores : list Score) : PerHandle nat :=
  mkPerHandle
    (countTopChoice "Rectangle Handle" scores)
    (countTopChoice "Curved Handle" scores)
    (countTopChoice "Circle Undergrip Handle" scores).

(** [calculateAggregateScores]: the three means are taken before the
    tally, so a throwing [math.mean] leaves no result at all. *)
Definition calculateAggregateScores (data : list Row) : result AggregateScores :=
  let scores := map scoreRow data in
  avgRectangleScore ← math.mean (map rectangleScore scores);
  avgCurvedScore ← math.mean (map curvedScore scores);
  avgCircleScore ←
    math.mean (List.filter truthy_number (map circleScore scores));
  let topChoiceCounts := tallyTopChoices scores in
  Ok (mkAggregateScores
        (mkPerHandle avgRectangleScore avgCurvedScore avgCircleScore)
        topChoiceCounts
        scores).

(** The three counts of a tally together. *)
Definition tallyTotal (counts : PerHandle nat) : nat :=
  rectangle_handle counts + curved_handle counts + circle_handle counts.

(** What the cleanup leaves in an attempt cell: the integer a string
    starts with, when it starts with digits, and the cell itself
    otherwise. *)
Definition cleanedCell (cell : option value) : option value :=
  match cell with
  | Some (VStr s) =>
      match leadingDigits s with
      | Some numericPart => Some (VNum (parseInt10 numericPart))
      | None => cell
      end
  | _ => cell
  end.

Definition all_digits (s : string) : bool :=
  forallb is_digit (list_ascii_of_string s).

Definition starts_with_digit (s : string) : bool :=
  match s with
  | EmptyString => false
  | String c _ => is_digit c
  end.

(** ** The textbook formulas

    What the statistics are compared with: sums run left to right from
    the first observation, as the library's do. *)

Definition sum_from (x : number) (array : list number) : number :=
  fold_left (fun s value => (s + value)%float) array x.

Definition fsum (array : list number) : number :=
  match array with
  | [] => 0%float
  | x :: rest => sum_from x rest
  end.

Definition fmean (array : list number) : number :=
  (fsum array / of_nat (length array))%float.

(** The sum of the squared deviations from the mean. *)
Definition sum_sq_dev (array : list number) : number :=
  let m := fmean array in
  fsum (map (fun x => ((x - m) * (x - m))%float) array).

(** Sample standard deviation: divisor [n - 1]. *)
Definition sample_stdDev (array : list number) : number :=
  Math.sqrt (sum_sq_dev array / of_nat (length array - 1))%float.

(** Population standard deviation: divisor [n]. *)
Definition population_stdDev (array : list number) : number :=
  Math.sqrt (sum_sq_dev array / of_nat (length array))%float.

(** ** Sample rows *)

(** Every sub-metric of every handle rated 5, and no attempt needed. *)
Definition row_fives_zero_attempts : Row :=
  list_to_map
    [("Positioning Accuracy", VNum 5); ("Number of Attempts", VNum 0);
     ("Comfort", VNum 5); ("Grip Security", VNum 5); ("Ease of Use", VNum 5);
     ("Intuitiveness ", VNum 5); ("Overall Satisfaction", VNum 5);
     ("Positioning Accuracy_1", VNum 5); ("Number of Attempts_1", VNum 0);
     ("Comfort_1", VNum 5); ("Grip Security_1", VNum 5);
     ("Ease of Use_1", VNum 5); ("Intuitiveness _1", VNum 5);
     ("Overall Satisfaction_1", VNum 5);
     ("Positioning Accuracy_2", VNum 5); ("Number of Attempts_2", VNum 0);
     ("Comfort_2", VNum 5); ("Grip Security_2", VNum 5);
     ("Ease of Use_2", VNum 5); ("Intuitiveness _2", VNum 5);
     ("Overall Satisfaction_2", VNum 5)].

(** The same ratings with one attempt for each handle. *)
Definition row_fives_one_attempt : Row :=
  <["Number of Attempts" := VNum 1]>
    (<["Number of Attempts_1" := VNum 1]>
       (<["Number of Attempts_2" := VNum 1]> row_fives_zero_attempts)).

(** A row with no cell at all. *)
Definition row_blank : Row := ∅.

(** Attempts entered with a comment, and a comment in another column. *)
Definition row_commented_attempts : Row :=
  list_to_map
    [("Number of Attempts", VStr "3 (slipped twice)");
     ("Number of Attempts_1", VStr "none");
     ("Number of Attempts_2", VNum 2);
     ("Comfort", VStr "4 or so")].

(** Rectangle and Curved rated alike, Circle lower. *)
Definition row_tie : Row :=
  <["Comfort_2" := VNum 1]> row_fives_one_attempt.

(** A comment where a rating is expected. *)
Definition row_comment : Row :=
  <["Comfort" := VStr "fine"]> row_fives_one_attempt.

(** ** Further definitions *)


(** ** Preference rankings ([prepareRankingData]) *)

Module Ranking.

Record t : Type := mk {
  name : string;
  firstChoice : nat;
  secondChoice : nat;
  thirdChoice : nat
}.

(** [firstChoice++], [secondChoice++] and [thirdChoice++] *)
Definition incFirst (r : t) : t :=
  mk (name r) (S (firstChoice r)) (secondChoice r) (thirdChoice r).

Definition incSecond (r : t) : t :=
  mk (name r) (firstChoice r) (S (secondChoice r)) (thirdChoice r).

Definition incThird (r : t) : t :=
  mk (name r) (firstChoice r) (secondChoice r) (S (thirdChoice r)).

End Ranking.

(** [v === x] for a number [x] *)
Definition strictEqualsNumber (v : value) (x : number) : bool :=
  match v with
  | VNum y => (y =? x)%float
  | _ => false
  end.

Arguments strictEqualsNumber v x%_float.

(** The body of [data.forEach] in [prepareRankingData]: nine tests, each
    incrementing one counter of [rankings[i]]. *)
Definition countRanking (rankings : list Ranking.t) (row : Row)
  : list Ranking.t :=
  let when (key : string) (rank : number) (i : nat)
           (inc : Ranking.t -> Ranking.t) (rankings : list Ranking.t) :=
    if strictEqualsNumber (get row key) rank then alter inc i rankings
    else rankings in
  let rectangle := "Handle Preference Ranking  [Rectangle Handle]" in
  let curved := "Handle Preference Ranking  [Curved Handle]" in
  let circle := "Handle Preference Ranking  [Circle Undergrip Handle]" in
  let rankings := when rectangle 1%float 0 Ranking.incFirst rankings in
  let rankings := when rectangle 2%float 0 Ranking.incSecond rankings in
  let rankings := when rectangle 3%float 0 Ranking.incThird rankings in
  let rankings := when curved 1%float 1 Ranking.incFirst rankings in
  let rankings := when curved 2%float 1 Ranking.incSecond rankings in
  let rankings := when curved 3%float 1 Ranking.incThird rankings in
  let rankings := when circle 1%float 2 Ranking.incFirst rankings in
  let rankings := when circle 2%float 2 Ranking.incSecond rankings in
  let rankings := when circle 3%float 2 Ranking.incThird rankings in
  rankings.

Definition prepareRankingData (data : list Row) : list Ranking.t :=
  fold_left countRanking data
    [Ranking.mk "Rectangle Handle" 0 0 0;
     Ranking.mk "Curved Handle" 0 0 0;
     Ranking.mk "Circle Undergrip Handle" 0 0 0].

(** [`Handle Preference Ranking  [${handle}]`], the column of a handle. *)
Definition rankingKey (handle : string) : string :=
  "Handle Preference Ranking  [" ++ handle ++ "]".

(** [data.filter(row => row[scoreKey] === rank).length], the count the
    overview cards take for [rank] 1. *)
Definition countRank (data : list Row) (scoreKey : string) (rank : number)
  : nat :=
  length (List.filter (fun row => strictEqualsNumber (get row scoreKey) rank)
                      data).

Arguments countRank data scoreKey rank%_float.

(** ** The best handle ([bestHandle], [generateInsights]) *)

(** [Object.entries] of an object keyed by the three handle names. *)
Definition entries {A : Type} (o : PerHandle A) : list (string * A) :=
  [("Rectangle Handle", rectangle_handle o);
   ("Curved Handle", curved_handle o);
   ("Circle Undergrip Handle", circle_handle o)].

(** [o[key]] for such an object. *)
Definition lookupHandle {A : Type} (o : PerHandle A) (key : string)
  : option A :=
  if String.eqb key "Rectangle Handle" then Some (rectangle_handle o)
  else if String.eqb key "Curved Handle" then Some (curved_handle o)
  else if String.eqb key "Circle Undergrip Handle" then Some (circle_handle o)
  else None.

(** [(best, [handle, score]) => (score > best.score) ? {handle, score} : best] *)
Definition higherScore (best entry : string * number) : string * number :=
  if (snd best <? snd entry)%float then entry else best.

(** The [reduce] that starts from [{handle: '', score: 0}]. *)
Definition bestScore (average : PerHandle number) : string * number :=
  fold_left higherScore (entries average) ("", 0%float).

(** [bestHandle(metricsData, aggregateScores)]; [metricsData] is not
    used. *)
Definition bestHandle {M : Type} (metricsData : M)
  (aggregateScores : option AggregateScores) : string :=
  match aggregateScores with
  | None => "Circle Undergrip Handle"
  | Some scores => fst (bestScore (average scores))
  end.

(** [(best, [handle, count]) => (count > best.count) ? {handle, count} : best] *)
Definition higherCount (best entry : string * nat) : string * nat :=
  if (snd best <? snd entry)%nat then entry else best.

(** The [reduce] over [topChoiceCounts] from [{handle: '', count: 0}]. *)
Definition mostPreferred (counts : PerHandle nat) : string * nat :=
  fold_left higherCount (entries counts) ("", 0).

(** ** Numbers as text *)

(** The decimal digits of a natural number. *)
Definition digits (z : Z) : string :=
  DecimalString.NilZero.string_of_uint (N.to_uint (Z.to_N z)).

Fixpoint zeros (k : nat) : string :=
  match k with
  | O => EmptyString
  | S k => String "0" (zeros k)
  end.

Fixpoint stripZeros (s : string) : string :=
  match s with
  | EmptyString => EmptyString
  | String c rest =>
      let rest := stripZeros rest in
      if Ascii.eqb c "0" && String.eqb rest "" then EmptyString
      else String c rest
  end.

(** The integer nearest to [m * 2^e * 10^f], the larger one of two. *)
Definition scaledNearest (m : positive) (e : Z) (f : nat) : Z :=
  let scaled := (Zpos m * 10 ^ Z.of_nat f)%Z in
  if (0 <=? e)%Z then (scaled * 2 ^ e)%Z
  else let d := (2 ^ (- e))%Z in ((2 * scaled + d) / (2 * d))%Z.

(** The digits of [n] with a point before the last [f] of them. *)
Definition fixedText (n : Z) (f : nat) : string :=
  let m := digits n in
  if (f =? 0)%nat then m
  else
    let m :=
      if (String.length m <=? f)%nat
      then (zeros (f + 1 - String.length m) ++ m)%string else m in
    let k := String.length m in
    (substring 0 (k - f) m ++ "." ++ substring (k - f) f m)%string.

(** [m * 2^e >= 10^21] *)
Definition atLeast1e21 (m : positive) (e : Z) : bool :=
  if (0 <=? e)%Z then (10 ^ 21 <=? Zpos m * 2 ^ e)%Z
  else (10 ^ 21 * 2 ^ (- e) <=? Zpos m)%Z.

(** The [k]-digit integer [s] with [s * 10^(nd - k)] nearest to [X], if
    that product is read back as [x]; the even one of two equally near. *)
Definition candidate (x : number) (X nd : Z) (k : nat) : option (nat * Z) :=
  let p := (10 ^ (nd - Z.of_nat k))%Z in
  let lo := (X / p)%Z in
  let hi := (lo + 1)%Z in
  let ok (s : Z) := (of_Z (s * p) =? x)%float in
  let twice := (2 * (X - lo * p))%Z in
  let lo_nearer := (twice <? p)%Z || ((twice =? p)%Z && Z.even lo) in
  match ok lo, ok hi with
  | true, true => Some (k, if lo_nearer then lo else hi)
  | true, false => Some (k, lo)
  | false, true => Some (k, hi)
  | false, false => None
  end.

Fixpoint firstCandidate (x : number) (X nd : Z) (ks : list nat)
  : option (nat * Z) :=
  match ks with
  | [] => None
  | k :: ks =>
      match candidate x X nd k with
      | Some c => Some c
      | None => firstCandidate x X nd ks
      end
  end.

(** [Number::toString] of a number [x >= 10^21] with the integer value
    [X]: the fewest digits that read back as [x], in exponent form. *)
Definition largeText (x : number) (X : Z) : string :=
  let nd := Z.of_nat (String.length (digits X)) in
  let '(k, s) :=
    default (String.length (digits X), X)
            (firstCandidate x X nd (seq 1 17)) in
  let text := digits s in
  let exponent := (nd - 1 + Z.of_nat (String.length text - k))%Z in
  let significant := stripZeros text in
  let mantissa :=
    match significant with
    | String d EmptyString => significant
    | String d rest => String d (String "." rest)
    | EmptyString => "0"
    end in
  (mantissa ++ "e+" ++ digits exponent)%string.

(** [x.toFixed(fractionDigits)], for [fractionDigits] up to 100 (the
    component passes 0, 1 and 2): the nearest number with that many
    decimals, the larger of two, and [Number::toString] from [10^21] on. *)
Definition toFixed (x : number) (fractionDigits : nat) : string :=
  match Prim2SF x with
  | S754_nan => "NaN"
  | S754_infinity s => if s then "-Infinity" else "Infinity"
  | S754_zero _ => fixedText 0 fractionDigits
  | S754_finite s m e =>
      ((if s then "-" else "") ++
       (if atLeast1e21 m e then largeText (abs x) (Zpos m * 2 ^ e)
        else fixedText (scaledNearest m e fractionDigits) fractionDigits))%string
  end.

(** ** The analysis of one metric ([runStatisticalAnalysis]) *)

Module Metric.

(** An entry of [metricsToAnalyze]. *)
Record t : Type := mk {
  name : string;
  rectangle : list number;
  curved : list number;
  circle : list number
}.

End Metric.

Module Summary.

Record t : Type := mk {
  mean : number;
  stdDev : number;
  ci : number * number;
  n : nat
}.

End Summary.

Module Comparison.

Record t : Type := mk {
  tValue : number;
  pValue : string;
  effectSize : number;
  interpretation : string
}.

End Comparison.

Module Comparisons.

Record t : Type := mk {
  rectVsCurved : Comparison.t;
  rectVsCircle : Comparison.t;
  curvedVsCircle : Comparison.t
}.

End Comparisons.

Module MetricResult.

Record t : Type := mk {
  metric : string;
  rectangle : Summary.t;
  curved : Summary.t;
  circle : Summary.t;
  comparisons : Comparisons.t
}.

End MetricResult.

(** The function mapped over [metricsToAnalyze]. *)
Definition analyzeMetric (metric : Metric.t) : result MetricResult.t :=
  rectStats ← calculateStats (Metric.rectangle metric);
  curvedStats ← calculateStats (Metric.curved metric);
  circleStats ← calculateStats (Metric.circle metric);
  let rectCI :=
    calculateCI (mean rectStats) (stdDev rectStats) (n rectStats) in
  let curvedCI :=
    calculateCI (mean curvedStats) (stdDev curvedStats) (n curvedStats) in
  let circleCI :=
    calculateCI (mean circleStats) (stdDev circleStats) (n circleStats) in
  rectVsCurved ← tTest (Metric.rectangle metric) (Metric.curved metric);
  rectVsCircle ← tTest (Metric.rectangle metric) (Metric.circle metric);
  curvedVsCircle ← tTest (Metric.curved metric) (Metric.circle metric);
  rectVsCurvedD ← cohenD (Metric.rectangle metric) (Metric.curved metric);
  rectVsCircleD ← cohenD (Metric.rectangle metric) (Metric.circle metric);
  curvedVsCircleD ← cohenD (Metric.curved metric) (Metric.circle metric);
  Ok (MetricResult.mk (Metric.name metric)
        (Summary.mk (mean rectStats) (stdDev rectStats) rectCI (n rectStats))
        (Summary.mk (mean curvedStats) (stdDev curvedStats) curvedCI
           (n curvedStats))
        (Summary.mk (mean circleStats) (stdDev circleStats) circleCI
           (n circleStats))
        (Comparisons.mk
           (Comparison.mk (t rectVsCurved) (pValue rectVsCurved)
              rectVsCurvedD (interpretCohenD rectVsCurvedD))
           (Comparison.mk (t rectVsCircle) (pValue rectVsCircle)
              rectVsCircleD (interpretCohenD rectVsCircleD))
           (Comparison.mk (t curvedVsCircle) (pValue curvedVsCircle)
              curvedVsCircleD (interpretCohenD curvedVsCircleD)))).

(** [analysisResults], the value given to [setStatisticalResults]. *)
Definition analysisResults (metricsToAnalyze : list Metric.t)
  : result (list MetricResult.t) :=
  mapM analyzeMetric metricsToAnalyze.

(** ** Notable differences ([findSignificantDifferences]) *)

Module Significant.

Record t : Type := mk {
  metricName : string;
  comparison : string;
  effect : string;
  pValue : string;
  meanDiff : string;
  better : string
}.

End Significant.

(** The condition of the three [if]s. *)
Definition isSignificant (c : Comparison.t) : bool :=
  String.eqb (Comparison.pValue c) "< 0.05" ||
  String.eqb (Comparison.pValue c) "< 0.01" ||
  String.eqb (Comparison.interpretation c) "Medium" ||
  String.eqb (Comparison.interpretation c) "Large".

(** One of the three [if]s: what it pushes for the pair of handles
    [first], [second] with the means [mean1], [mean2]. *)
Definition significantPair (metric comparison : string) (c : Comparison.t)
  (first second : string) (mean1 mean2 : number) : list Significant.t :=
  if isSignificant c then
    [Significant.mk metric comparison (Comparison.interpretation c)
       (Comparison.pValue c)
       (toFixed (Math.abs (mean1 - mean2)%float) 2)
       (if String.eqb metric "Number of Attempts"
        then (if (mean1 <? mean2)%float then first else second)
        else (if (mean2 <? mean1)%float then first else second))]
  else [].

(** The function mapped over [statisticalResults]. *)
Definition significantComparisons (result : MetricResult.t)
  : list Significant.t :=
  let metric := MetricResult.metric result in
  let comparisons := MetricResult.comparisons result in
  let rectangle := Summary.mean (MetricResult.rectangle result) in
  let curved := Summary.mean (MetricResult.curved result) in
  let circle := Summary.mean (MetricResult.circle result) in
  significantPair metric "Rectangle vs Curved"
    (Comparisons.rectVsCurved comparisons)
    "Rectangle Handle" "Curved Handle" rectangle curved ++
  significantPair metric "Rectangle vs Circle"
    (Comparisons.rectVsCircle comparisons)
    "Rectangle Handle" "Circle Undergrip Handle" rectangle circle ++
  significantPair metric "Curved vs Circle"
    (Comparisons.curvedVsCircle comparisons)
    "Curved Handle" "Circle Undergrip Handle" curved circle.

Definition findSignificantDifferences
  (statisticalResults : option (list MetricResult.t)) : list Significant.t :=
  match statisticalResults with
  | None => []
  | Some results => concat (map significantComparisons results)
  end.

(** ** Insights ([generateInsights]) *)

Module Breakdown.

(** An entry [breakdown[factor][value]]: the size of the group and the
    mean rank of each handle in it. *)
Record t : Type := mk {
  count : nat;
  ranks : PerHandle number
}.

End Breakdown.

Module DemographicInsight.

Record t : Type := mk {
  factor : string;
  group : string;
  handle : string;
  rank : number
}.

End DemographicInsight.

Module Insight.

Record t : Type := mk {
  key : string;
  title : string;
  description : string;
  details : option (list Significant.t)
}.

End Insight.

(** A call that returns, or throws a [TypeError]. *)
Inductive completion (A : Type) : Type :=
  | Returns (a : A)
  | ThrowsTypeError.

Arguments Returns {A} a.
Arguments ThrowsTypeError {A}.

Definition handleTypes : list string :=
  ["Rectangle Handle"; "Curved Handle"; "Circle Undergrip Handle"].

(** A value in a template literal, [undefined] when absent. *)
Definition templateText (text : option string) : string :=
  default "undefined" text.

(** [(best, [group, data]) =>
      (data[handleType] < best.rank) ? {group, rank: data[handleType]} : best] *)
Definition lowerRank (handleType : string) (best : string * number)
  (entry : string * Breakdown.t) : string * number :=
  match lookupHandle (Breakdown.ranks (snd entry)) handleType with
  | Some rank =>
      if (rank <? snd best)%float then (fst entry, rank) else best
  | None => best
  end.

(** The loop over [Object.entries(demographicBreakdown)]; an object is
    given by its entries, in the order [Object.entries] lists them. *)
Definition demographicInsights
  (demographicBreakdown : list (string * list (string * Breakdown.t)))
  : list DemographicInsight.t :=
  flat_map
    (fun '(factor, breakdown) =>
       if (1 <? length breakdown)%nat then
         flat_map
           (fun handleType =>
              let bestGroup :=
                fold_left (lowerRank handleType) breakdown ("", 5%float) in
              if negb (String.eqb (fst bestGroup) "") then
                [DemographicInsight.mk factor (fst bestGroup) handleType
                   (snd bestGroup)]
              else [])
           handleTypes
       else [])
    demographicBreakdown.

(** [(strongest, insight) =>
      (insight.rank < strongest.rank) ? insight : strongest], from
    [{rank: 5}]. *)
Definition strongerInsight
  (strongest : option DemographicInsight.t * number)
  (insight : DemographicInsight.t) : option DemographicInsight.t * number :=
  if (DemographicInsight.rank insight <? snd strongest)%float
  then (Some insight, DemographicInsight.rank insight)
  else strongest.

(** The handle with the highest mean of a metric, and that mean. *)
Definition topHandleMetric (result : MetricResult.t)
  : string * (string * number) :=
  let rectangle := Summary.mean (MetricResult.rectangle result) in
  let curved := Summary.mean (MetricResult.curved result) in
  let circle := Summary.mean (MetricResult.circle result) in
  let handleData :=
    if (curved <? rectangle)%float && (circle <? rectangle)%float
    then ("Rectangle Handle", rectangle)
    else if (rectangle <? curved)%float && (circle <? curved)%float
    then ("Curved Handle", curved)
    else ("Circle Undergrip Handle", circle) in
  (MetricResult.metric result, handleData).

(** [(weakest, metric) => (metric.score < weakest.score) ? metric : weakest],
    from [{score: 5}]. *)
Definition weakerMetric (weakest : option (string * string) * number)
  (metric : string * (string * number))
  : option (string * string) * number :=
  if (snd (snd metric) <? snd weakest)%float
  then (Some (fst metric, fst (snd metric)), snd (snd metric))
  else weakest.

Definition generateInsights
  (statisticalResults : option (list MetricResult.t))
  (aggregateScores : option AggregateScores)
  (demographicBreakdown :
     option (list (string * list (string * Breakdown.t))))
  (data : list Row) : completion (list Insight.t) :=
  match statisticalResults, aggregateScores, demographicBreakdown with
  | Some results, Some scores, Some breakdown =>
      let bestHandle := fst (bestScore (average scores)) in
      match lookupHandle (average scores) bestHandle with
      | None => ThrowsTypeError
      | Some bestAverage =>
          let overallBest :=
            Insight.mk "overall-best" "Overall Best Handle"
              ("Based on weighted aggregate scores across all metrics, the "
               ++ bestHandle ++ " performs best with an average score of "
               ++ toFixed bestAverage 2 ++ "/5.")
              None in
          let mostPreferredHandle :=
            fst (mostPreferred (topChoiceCounts scores)) in
          let count := lookupHandle (topChoiceCounts scores)
                         mostPreferredHandle in
          let share :=
            match count with
            | Some c => (of_nat c / of_nat (length data) * 100)%float
            | None => nan
            end in
          let mostPreferredInsight :=
            Insight.mk "most-preferred" "Most Preferred Handle"
              ("When asked to directly rank the handles, "
               ++ templateText (option_map (fun c => digits (Z.of_nat c)) count)
               ++ " out of " ++ digits (Z.of_nat (length data))
               ++ " participants (" ++ toFixed share 0 ++ "%) chose the "
               ++ mostPreferredHandle ++ " as their top choice.")
              None in
          let significantDiffs :=
            findSignificantDifferences statisticalResults in
          let significantInsight :=
            if (0 <? length significantDiffs)%nat then
              [Insight.mk "significant-differences"
                 "Notable Metric Differences"
                 ("The most significant differences were found in "
                  ++ String.concat " and "
                       (firstn 2 (map Significant.metricName significantDiffs))
                  ++ " metrics.")
                 (Some significantDiffs)]
            else [] in
          let demographic := demographicInsights breakdown in
          let demographicInsight :=
            if (0 <? length demographic)%nat then
              let strongestDemographic :=
                fst (fold_left strongerInsight demographic (None, 5%float)) in
              [Insight.mk "demographic-insight" "Demographic Trends"
                 (templateText
                    (option_map DemographicInsight.group strongestDemographic)
                  ++ " participants showed the strongest preference for the "
                  ++ templateText
                       (option_map DemographicInsight.handle
                          strongestDemographic)
                  ++ ".")
                 None]
            else [] in
          let topHandleMetrics := map topHandleMetric results in
          let weakestMetric :=
            fold_left weakerMetric topHandleMetrics (None, 5%float) in
          let improvement :=
            Insight.mk "improvement-area" "Key Improvement Area"
              ("Even the top-performing handles could be improved in the "
               ++ templateText (option_map fst (fst weakestMetric))
               ++ " metric, where the highest score was only "
               ++ toFixed (snd weakestMetric) 1 ++ "/5.")
              None in
          Returns
            ([overallBest; mostPreferredInsight] ++ significantInsight ++
             demographicInsight ++ [improvement])%list
      end
  | _, _, _ => Returns []
  end.

(** What [findSignificantDifferences] is compared with: a pair of samples
    is notable when |t| is above 2 or Cohen's d is not below 0.5. *)
Definition notable (arr1 arr2 : list number) : bool :=
  match tTest arr1 arr2, cohenD arr1 arr2 with
  | Ok test, Ok d => (2.0 <? Math.abs (t test))%float || negb (d <? 0.5)%float
  | _, _ => false
  end.

(** The metric and the name of each notable pair of a metric. *)
Definition notablePairs (metric : Metric.t) : list (string * string) :=
  map (fun comparison => (Metric.name metric, comparison))
    ((if notable (Metric.rectangle metric) (Metric.curved metric)
      then ["Rectangle vs Curved"] else []) ++
     (if notable (Metric.rectangle metric) (Metric.circle metric)
      then ["Rectangle vs Circle"] else []) ++
     (if notable (Metric.curved metric) (Metric.circle metric)
      then ["Curved vs Circle"] else [])).

(** ** Samples for the insights *)

Definition sample_metrics : list Metric.t :=
  [Metric.mk "Comfort" [4; 5; 3]%float [2; 3; 2]%float [5; 5; 4]%float;
   Metric.mk "Number of Attempts" [1; 2; 1]%float [3; 3; 2]%float
     [1; 1; 1]%float].

Definition sample_results : list MetricResult.t :=
  match analysisResults sample_metrics with
  | Ok results => results
  | Throw _ => []
  end.

Definition sample_rows : list Row :=
  [row_tie; row_comment; row_fives_one_attempt].

Definition sample_scores : AggregateScores :=
  mkAggregateScores (mkPerHandle 4.875 4.875 4.575)%float
    (mkPerHandle 2 0 1) (map scoreRow sample_rows).

Definition sample_breakdown : list (string * list (string * Breakdown.t)) :=
  [("Age Range",
    [("18-24", Breakdown.mk 2 (mkPerHandle 1.5 2 2.5)%float);
     ("25-34", Breakdown.mk 1 (mkPerHandle 3 1 2)%float)]);
   ("Height", [("170", Breakdown.mk 3 (mkPerHandle 2 2 2)%float)])].

(** A metric on which every handle was given 5 by both participants. *)
Definition sample_perfect_results : list MetricResult.t :=
  match analysisResults
          [Metric.mk "Comfort" [5; 5]%float [5; 5]%float [5; 5]%float] with
  | Ok results => results
  | Throw _ => []
  end.

(** * Properties *)

(** ** The order of binary64 numbers

    The comparison of [SpecFloat] is a total preorder on the numbers other
    than NaN; the primitive comparisons inherit it through [FloatAxioms]. *)

Section SpecOrder.

Implicit Types x y z : spec_float.

Lemma pos_compare_cont_eq (p q : positive) :
  Pos.compare_cont Eq p q = Pos.compare p q.
Proof. reflexivity. Qed.

Lemma SFcompare_flip x y :
  SFcompare y x = option_map CompOpp (SFcompare x y).
Proof.
  destruct x as [[]|[]| |[] m e], y as [[]|[]| |[] m' e']; simpl;
    try reflexivity;
    rewrite !pos_compare_cont_eq, (Z.compare_antisym e e'),
      (Pos.compare_antisym m m');
    destruct (e ?= e')%Z; simpl; try reflexivity;
    destruct (m ?= m')%positive; reflexivity.
Qed.

Lemma SFcompare_refl x : x <> S754_nan -> SFcompare x x = Some Eq.
Proof.
  destruct x as [[]|[]| |[] m e]; simpl; try congruence; intros _;
    rewrite Z.compare_refl, pos_compare_cont_eq, Pos.compare_refl;
    reflexivity.
Qed.

Lemma SFleb_trans x y z :
  SFleb x y = true -> SFleb y z = true -> SFleb x z = true.
Proof.
  unfold SFleb.
  destruct x as [[]|[]| |[] m1 e1], y as [[]|[]| |[] m2 e2],
    z as [[]|[]| |[] m3 e3]; simpl; try (intros; congruence);
    change (Pos.compare_cont Eq) with Pos.compare;
    destruct (Z.compare_spec e1 e2), (Z.compare_spec e2 e3),
      (Z.compare_spec e1 e3); simpl; try (intros; congruence); try lia;
    destruct (Pos.compare_spec m1 m2), (Pos.compare_spec m2 m3),
      (Pos.compare_spec m1 m3); simpl; try (intros; congruence); lia.
Qed.

Lemma SFleb_not_ltb x y : SFleb x y = true -> SFltb y x = false.
Proof.
  unfold SFleb, SFltb. rewrite (SFcompare_flip x y).
  destruct (SFcompare x y) as [[]|]; simpl; congruence.
Qed.

Lemma SFltb_leb x y : SFltb x y = true -> SFleb x y = true.
Proof.
  unfold SFleb, SFltb. destruct (SFcompare x y) as [[]|]; congruence.
Qed.

Lemma SFeqb_leb x y : SFeqb x y = true -> SFleb x y = true.
Proof.
  unfold SFleb, SFeqb. destruct (SFcompare x y) as [[]|]; congruence.
Qed.

Lemma SFeqb_sym x y : SFeqb x y = true -> SFeqb y x = true.
Proof.
  unfold SFeqb. rewrite (SFcompare_flip x y).
  destruct (SFcompare x y) as [[]|]; simpl; congruence.
Qed.

Lemma SFcompare_not_nan x y c :
  SFcompare x y = Some c -> x <> S754_nan /\ y <> S754_nan.
Proof.
  destruct x as [[]|[]| |[] m e], y as [[]|[]| |[] m' e']; simpl;
    intros H; split; congruence.
Qed.

Lemma SFltb_neg_infinity x y :
  SFltb x y = true -> SFltb (S754_infinity true) y = true.
Proof.
  unfold SFltb.
  destruct x as [[]|[]| |[] m e], y as [[]|[]| |[] m' e']; simpl;
    congruence.
Qed.

End SpecOrder.

Section FloatOrder.

Implicit Types x y z : number.

Lemma leb_trans x y z :
  (x <=? y)%float = true -> (y <=? z)%float = true -> (x <=? z)%float = true.
Proof. rewrite !FloatAxioms.leb_spec. apply SFleb_trans. Qed.

Lemma leb_not_ltb x y : (x <=? y)%float = true -> (y <? x)%float = false.
Proof.
  rewrite FloatAxioms.leb_spec, FloatAxioms.ltb_spec. apply SFleb_not_ltb.
Qed.

Lemma ltb_leb x y : (x <? y)%float = true -> (x <=? y)%float = true.
Proof.
  rewrite FloatAxioms.leb_spec, FloatAxioms.ltb_spec. apply SFltb_leb.
Qed.

Lemma eqb_leb x y : (x =? y)%float = true -> (x <=? y)%float = true.
Proof.
  rewrite FloatAxioms.leb_spec, FloatAxioms.eqb_spec. apply SFeqb_leb.
Qed.

Lemma eqb_sym x y : (x =? y)%float = true -> (y =? x)%float = true.
Proof. rewrite !FloatAxioms.eqb_spec. apply SFeqb_sym. Qed.

Lemma eqb_refl x : is_nan x = false -> (x =? x)%float = true.
Proof. unfold is_nan. now destruct (x =? x)%float. Qed.

Lemma ltb_is_nan x y :
  (x <? y)%float = true -> is_nan x = false /\ is_nan y = false.
Proof.
  unfold is_nan. rewrite FloatAxioms.ltb_spec, !FloatAxioms.eqb_spec.
  unfold SFltb, SFeqb.
  destruct (SFcompare (Prim2SF x) (Prim2SF y)) as [c|] eqn:E; [|congruence].
  destruct (SFcompare_not_nan _ _ _ E) as [Hx Hy].
  rewrite !SFcompare_refl by assumption. now intros _.
Qed.

Lemma eqb_is_nan x y :
  (x =? y)%float = true -> is_nan x = false /\ is_nan y = false.
Proof.
  unfold is_nan. rewrite !FloatAxioms.eqb_spec. unfold SFeqb at 1.
  destruct (SFcompare (Prim2SF x) (Prim2SF y)) as [c|] eqn:E; [|congruence].
  destruct (SFcompare_not_nan _ _ _ E) as [Hx Hy]. unfold SFeqb.
  rewrite !SFcompare_refl by assumption. now intros _.
Qed.

Lemma ltb_neg_infinity x y :
  (x <? y)%float = true -> (neg_infinity <? y)%float = true.
Proof. rewrite !FloatAxioms.ltb_spec. apply SFltb_neg_infinity. Qed.

(** NaN is a single value, and absorbing for the division. *)
Lemma is_nan_eq x : is_nan x = true -> x = nan.
Proof.
  intros H. apply Prim2SF_inj.
  unfold is_nan in H. rewrite FloatAxioms.eqb_spec in H. unfold SFeqb in H.
  destruct (Prim2SF x) as [[]|[]| |[] m e] eqn:E; try reflexivity;
    simpl in H; try discriminate;
    rewrite Z.compare_refl, pos_compare_cont_eq, Pos.compare_refl in H;
    discriminate.
Qed.

Lemma nan_div y : (nan / y)%float = nan.
Proof.
  apply Prim2SF_inj. rewrite FloatAxioms.div_spec.
  change (Prim2SF nan) with S754_nan. reflexivity.
Qed.

Lemma div_nan x : (x / nan)%float = nan.
Proof.
  apply Prim2SF_inj. rewrite FloatAxioms.div_spec.
  change (Prim2SF nan) with S754_nan.
  destruct (Prim2SF x) as [[]|[]| |[] m e]; reflexivity.
Qed.

End FloatOrder.

(** ** mathjs on a non-empty array *)

Section Mathjs.

Implicit Types (x : number) (array : list number).

Lemma fold_accumulate_some array x :
  fold_left math.accumulate array (Some x) = Some (sum_from x array).
Proof.
  revert x. induction array as [|y array IH]; intros x; simpl.
  - reflexivity.
  - apply IH.
Qed.

Lemma total_cons x array : math.total (x :: array) = Some (sum_from x array).
Proof. apply fold_accumulate_some. Qed.

Lemma mean_cons x array :
  math.mean (x :: array) =
  Ok (sum_from x array / of_nat (S (length array)))%float.
Proof. unfold math.mean. rewrite total_cons. reflexivity. Qed.

Lemma mean_returns array : array <> [] -> returns (math.mean array).
Proof.
  destruct array as [|x array]; [congruence|]. intros _.
  rewrite mean_cons. eexists; reflexivity.
Qed.

Lemma mean_throws_iff array : throws (math.mean array) <-> array = [].
Proof.
  split.
  - destruct array as [|x array]; [reflexivity|].
    rewrite mean_cons. intros [e He]. discriminate.
  - intros ->. eexists; reflexivity.
Qed.

Lemma variance_returns array : array <> [] -> returns (math.variance array).
Proof.
  destruct array as [|x array]; [congruence|]. intros _.
  unfold math.variance. rewrite total_cons. cbn [map].
  rewrite total_cons.
  destruct (is_nan _); [eexists; reflexivity|].
  destruct (_ =? 1)%nat; eexists; reflexivity.
Qed.

Lemma std_cons x array :
  math.std (x :: array) =
  (v ← math.variance (x :: array); Ok (Math.sqrt v)).
Proof. reflexivity. Qed.

Lemma std_returns array : array <> [] -> returns (math.std array).
Proof.
  intros H. destruct (variance_returns array H) as [v Hv].
  destruct array as [|x array]; [congruence|].
  rewrite std_cons, Hv. eexists; reflexivity.
Qed.

End Mathjs.

Lemma length_eqb_0_false {A : Type} (l : list A) :
  (length l =? 0)%nat = false <-> l <> [].
Proof.
  destruct l; simpl; split; intros H; try reflexivity; congruence.
Qed.

(** ** Effect-size labels and p-value buckets *)

(** C7. The label of Cohen's d is a step function with left-closed steps:
    below 0.2 it is Negligible, from 0.2 and below 0.5 Small, from 0.5 and
    below 0.8 Medium, from 0.8 on Large; so 0.19, 0.2, 0.49, 0.5, 0.79 and
    0.8 are labelled Negligible, Small, Small, Medium, Medium and Large. *)
Theorem interpretCohenD_step_function (d : number) :
  ((d <? 0.2)%float = true -> interpretCohenD d = "Negligible") /\
  ((0.2 <=? d)%float = true -> (d <? 0.5)%float = true ->
     interpretCohenD d = "Small") /\
  ((0.5 <=? d)%float = true -> (d <? 0.8)%float = true ->
     interpretCohenD d = "Medium") /\
  ((0.8 <=? d)%float = true -> interpretCohenD d = "Large") /\
  map interpretCohenD [0.19; 0.2; 0.49; 0.5; 0.79; 0.8]%float =
    ["Negligible"; "Small"; "Small"; "Medium"; "Medium"; "Large"].
Proof.
  assert (below : forall a : number,
            (a <=? d)%float = true -> (d <? a)%float = false)
    by (intros a; apply leb_not_ltb).
  assert (above : forall a b : number,
            (a <=? b)%float = true -> (b <=? d)%float = true ->
            (d <? a)%float = false)
    by (intros a b Hab Hbd; apply leb_not_ltb, (leb_trans a b d Hab Hbd)).
  unfold interpretCohenD. repeat split.
  - intros ->. reflexivity.
  - intros H2 ->. rewrite (below _ H2). reflexivity.
  - intros H5 ->.
    rewrite (above 0.2 0.5 eq_refl H5)%float, (below _ H5). reflexivity.
  - intros H8.
    rewrite (above 0.2 0.8 eq_refl H8)%float,
      (above 0.5 0.8 eq_refl H8)%float, (below _ H8).
    reflexivity.
Qed.

Lemma interpretCohenD_step_function_witness :
  interpretCohenD 0.1 = "Negligible" /\ interpretCohenD 0.3 = "Small" /\
  interpretCohenD 0.6 = "Medium" /\ interpretCohenD 1.7 = "Large".
Proof.
  split; [|split; [|split]].
  - apply (interpretCohenD_step_function 0.1%float). reflexivity.
  - apply (interpretCohenD_step_function 0.3%float); reflexivity.
  - apply (interpretCohenD_step_function 0.6%float); reflexivity.
  - apply (interpretCohenD_step_function 1.7%float). reflexivity.
Defined.

Lemma pValueOf_step_function (t : number) :
  let a := Math.abs t in
  ((2.7 <? a)%float = true -> pValueOf t = "< 0.01") /\
  ((2.0 <? a)%float = true -> (a <=? 2.7)%float = true ->
     pValueOf t = "< 0.05") /\
  ((a <=? 2.0)%float = true -> pValueOf t = "> 0.05").
Proof.
  unfold pValueOf. cbv zeta. repeat split.
  - intros ->. reflexivity.
  - intros -> H27. rewrite (leb_not_ltb _ _ H27). reflexivity.
  - intros H2.
    rewrite (leb_not_ltb _ _ (leb_trans _ 2.0%float 2.7%float H2 eq_refl)),
      (leb_not_ltb _ _ H2).
    reflexivity.
Qed.

Lemma tTest_returns (arr1 arr2 : list number) :
  exists r, tTest arr1 arr2 = Ok r /\ pValue r = pValueOf (t r).
Proof.
  unfold tTest.
  destruct (length arr1 =? 0)%nat eqn:E1; [eexists; split; reflexivity|].
  destruct (length arr2 =? 0)%nat eqn:E2; [eexists; split; reflexivity|].
  apply length_eqb_0_false in E1, E2.
  destruct (mean_returns _ E1) as [m1 ->], (mean_returns _ E2) as [m2 ->].
  destruct (variance_returns _ E1) as [v1 ->],
    (variance_returns _ E2) as [v2 ->].
  cbn. eexists; split; reflexivity.
Qed.

(** C6. The t-test always returns, and its p-value bucket is a step
    function of |t| with exclusive thresholds: above 2.7 it is "< 0.01",
    above 2.0 and up to 2.7 it is "< 0.05", and up to 2.0, 2.0 included,
    it is "> 0.05"; so |t| = 2.71, 2.0 and 1.9 give "< 0.01", "> 0.05" and
    "> 0.05". *)
Theorem tTest_pValue_step_function (arr1 arr2 : list number) :
  (exists r, tTest arr1 arr2 = Ok r /\
     let a := Math.abs (t r) in
     ((2.7 <? a)%float = true -> pValue r = "< 0.01") /\
     ((2.0 <? a)%float = true -> (a <=? 2.7)%float = true ->
        pValue r = "< 0.05") /\
     ((a <=? 2.0)%float = true -> pValue r = "> 0.05")) /\
  map pValueOf [2.71; -2.71; 2.0; -2.0; 1.9; -1.9]%float =
    ["< 0.01"; "< 0.01"; "> 0.05"; "> 0.05"; "> 0.05"; "> 0.05"].
Proof.
  split; [|reflexivity].
  destruct (tTest_returns arr1 arr2) as (r & Hr & Hp).
  exists r. split; [exact Hr|]. rewrite Hp. apply pValueOf_step_function.
Qed.

Lemma tTest_pValue_step_function_witness :
  exists r, tTest [4; 5; 3]%float [2; 3; 2]%float = Ok r /\
            t r = 2.5%float /\ pValue r = "< 0.05".
Proof.
  destruct (tTest_pValue_step_function [4; 5; 3]%float [2; 3; 2]%float)
    as [(r & Hr & _ & H & _) _].
  exists r. vm_compute in Hr. injection Hr as <-.
  split; [reflexivity|]. split; [reflexivity|].
  apply H; reflexivity.
Defined.


(** ** Descriptive statistics *)

Lemma calculateStats_nonempty (arr : list number) :
  arr <> [] ->
  exists m sd,
    math.mean arr = Ok m /\ math.std arr = Ok sd /\
    calculateStats arr = Ok (mkStats m sd (length arr)).
Proof.
  intros H. unfold calculateStats.
  destruct (mean_returns arr H) as [m Hm], (std_returns arr H) as [sd Hsd].
  apply length_eqb_0_false in H. rewrite H, Hm, Hsd.
  exists m, sd. repeat split; reflexivity.
Qed.

Lemma calculateStats_returns (arr : list number) :
  exists st, calculateStats arr = Ok st /\ n st = length arr.
Proof.
  destruct arr as [|x arr].
  - eexists; split; reflexivity.
  - destruct (calculateStats_nonempty (x :: arr)) as (m & sd & _ & _ & H);
      [discriminate|].
    rewrite H. eexists; split; reflexivity.
Qed.

(** C8. An empty sample has the statistics [{mean: 0, stdDev: 0, n: 0}]
    and the interval [[0, 0]]; whenever a sample has at most one
    observation, and whenever [n <= 1] at all, the interval is [[0, 0]]. *)
Theorem degenerate_stats_clamped (arr : list number) :
  (arr = [] -> calculateStats arr = Ok (mkStats 0 0 0)) /\
  (length arr <= 1 ->
     exists st, calculateStats arr = Ok st /\ n st = length arr /\
       calculateCI (mean st) (stdDev st) (n st) = (0, 0)%float) /\
  (forall (m sd : number) (k : nat), k <= 1 ->
     calculateCI m sd k = (0, 0)%float).
Proof.
  assert (clamp : forall (m sd : number) (k : nat), k <= 1 ->
            calculateCI m sd k = (0, 0)%float).
  { intros m sd k Hk. unfold calculateCI.
    destruct (Nat.leb_spec k 1) as [_|Hgt]; [reflexivity|lia]. }
  split; [|split].
  - intros ->. reflexivity.
  - intros Hlen. destruct (calculateStats_returns arr) as (st & Hst & Hn).
    exists st. split; [exact Hst|]. split; [exact Hn|].
    apply clamp. rewrite Hn. exact Hlen.
  - exact clamp.
Qed.

Lemma degenerate_stats_clamped_witness :
  calculateStats [] = Ok (mkStats 0 0 0) /\
  (exists st, calculateStats [7%float] = Ok st /\ n st = 1 /\
     calculateCI (mean st) (stdDev st) (n st) = (0, 0)%float) /\
  calculateCI 7 nan 1 = (0, 0)%float.
Proof.
  split; [|split].
  - apply (degenerate_stats_clamped []). reflexivity.
  - apply (degenerate_stats_clamped [7%float]). simpl. lia.
  - apply (degenerate_stats_clamped []). lia.
Defined.


Lemma mean_fmean (arr : list number) :
  arr <> [] -> math.mean arr = Ok (fmean arr).
Proof.
  destruct arr as [|x arr]; [congruence|]. intros _. apply mean_cons.
Qed.

Lemma variance_cons (x : number) (arr : list number) :
  math.variance (x :: arr) =
  let ss := sum_sq_dev (x :: arr) in
  if is_nan ss then Ok ss
  else if (length (x :: arr) =? 1)%nat then Ok 0%float
  else Ok (ss / of_nat (length (x :: arr) - 1))%float.
Proof.
  unfold math.variance. rewrite total_cons. cbn [map]. rewrite total_cons.
  reflexivity.
Qed.

Lemma variance_two_or_more (arr : list number) :
  2 <= length arr ->
  math.variance arr =
  Ok (sum_sq_dev arr / of_nat (length arr - 1))%float.
Proof.
  intros Hlen. destruct arr as [|x [|y arr]]; try (simpl in Hlen; lia).
  rewrite variance_cons. cbv zeta.
  destruct (is_nan (sum_sq_dev (x :: y :: arr))) eqn:E.
  - rewrite (is_nan_eq _ E), nan_div. reflexivity.
  - reflexivity.
Qed.

Lemma variance_single (x : number) :
  math.variance [x] =
  Ok (if is_nan (sum_sq_dev [x]) then nan else 0%float).
Proof.
  rewrite variance_cons. cbv zeta.
  destruct (is_nan (sum_sq_dev [x])) eqn:E.
  - rewrite (is_nan_eq _ E). reflexivity.
  - reflexivity.
Qed.

Lemma calculateStats_sample (arr : list number) :
  arr <> [] ->
  exists st,
    calculateStats arr = Ok st /\
    mean st = fmean arr /\
    n st = length arr /\
    (2 <= length arr -> stdDev st = sample_stdDev arr) /\
    (length arr = 1 ->
     stdDev st = if is_nan (sum_sq_dev arr) then nan else 0%float).
Proof.
  intros H.
  destruct (calculateStats_nonempty arr H) as (m & sd & Hm & Hsd & Hst).
  exists (mkStats m sd (length arr)). split; [exact Hst|]. cbn.
  rewrite (mean_fmean arr H) in Hm. injection Hm as <-.
  split; [reflexivity|]. split; [reflexivity|].
  destruct arr as [|x arr]; [congruence|]. rewrite std_cons in Hsd. split.
  - intros Hlen.
    rewrite (variance_two_or_more (x :: arr) Hlen) in Hsd. cbn in Hsd.
    injection Hsd as <-. reflexivity.
  - intros Hlen. destruct arr as [|y arr]; try discriminate.
    rewrite (variance_single x) in Hsd. cbn [mbind result_bind] in Hsd.
    injection Hsd as <-.
    destruct (is_nan (sum_sq_dev [x])); reflexivity.
Qed.

(** C1, as the code has it. For every non-empty sample the statistics are
    returned with the mean, [n] the number of observations, and [stdDev]
    the sample standard deviation (divisor [n - 1]) when there are two
    observations or more; a single observation has [stdDev] 0, and NaN
    exactly when its squared deviation is NaN (as for [Infinity]).  For
    [[4, 5, 3]] the mean is 4 and [stdDev] is 1. *)
Theorem calculateStats_sample_stdDev :
  (forall arr : list number,
     arr <> [] ->
     exists st,
       calculateStats arr = Ok st /\
       mean st = fmean arr /\
       n st = length arr /\
       (2 <= length arr -> stdDev st = sample_stdDev arr) /\
       (length arr = 1 ->
        stdDev st = if is_nan (sum_sq_dev arr) then nan else 0%float)) /\
  calculateStats [4; 5; 3]%float = Ok (mkStats 4 1 3) /\
  sample_stdDev [4; 5; 3]%float = 1%float /\
  calculateStats [7]%float = Ok (mkStats 7 0 1) /\
  calculateStats [infinity] = Ok (mkStats infinity nan 1).
Proof.
  split; [exact calculateStats_sample|]. repeat split; reflexivity.
Qed.

Lemma calculateStats_sample_stdDev_witness :
  (exists st,
     calculateStats [8; 6]%float = Ok st /\
     mean st = 7%float /\ n st = 2 /\
     stdDev st = 1.4142135623730951%float) /\
  (exists st,
     calculateStats [3]%float = Ok st /\
     mean st = 3%float /\ n st = 1 /\ stdDev st = 0%float).
Proof.
  destruct calculateStats_sample_stdDev as [H _]. split.
  - destruct (H [8; 6]%float) as (st & Hst & Hm & Hn & Hsd & _);
      [discriminate|].
    exists st. split; [exact Hst|].
    split; [rewrite Hm; reflexivity|].
    split; [exact Hn|].
    rewrite Hsd by (simpl; lia). reflexivity.
  - destruct (H [3]%float) as (st & Hst & Hm & Hn & _ & Hsd);
      [discriminate|].
    exists st. split; [exact Hst|].
    split; [rewrite Hm; reflexivity|].
    split; [exact Hn|].
    rewrite Hsd by reflexivity. reflexivity.
Defined.

(** C1 as stated fails: on [[4, 5, 3]] the code returns [stdDev] 1, while
    the population formula (divisor [n]) gives 0.816... *)
Lemma calculateStats_not_population :
  calculateStats [4; 5; 3]%float = Ok (mkStats 4 1 3) /\
  population_stdDev [4; 5; 3]%float = 0.81649658092772603%float /\
  ~ (exists st, calculateStats [4; 5; 3]%float = Ok st /\
                stdDev st = population_stdDev [4; 5; 3]%float).
Proof.
  split; [reflexivity|]. split; [reflexivity|].
  intros (st & Hst & Hsd). vm_compute in Hst. injection Hst as <-.
  apply (f_equal (fun x => (x =? 1)%float)) in Hsd.
  vm_compute in Hsd. discriminate.
Qed.


(** ** Aggregate scores on particular rows *)

(** C3 fails on the code. With every sub-metric 5 and 0 attempts the
    claimed score is 5.0; the code reads the attempts 0 as missing, lets
    the inverted attempts be 0 instead of [5 - 0], and scores 4.375 for
    each handle.  With 1 attempt the inversion applies and the score is
    4.875. *)
Theorem scoreRow_zero_attempts :
  ((1.5 * 5 + 1.0 * 5 + 1.2 * 5 + 1.0 * 5 + 1.0 * 5 + 0.8 * 5 + 1.5 * 5) / 8.0
   = 5)%float /\
  invertedAttempts row_fives_zero_attempts "Number of Attempts" = 0%float /\
  rectangleScore (scoreRow row_fives_zero_attempts) = 4.375%float /\
  curvedScore (scoreRow row_fives_zero_attempts) = 4.375%float /\
  circleScore (scoreRow row_fives_zero_attempts) = 4.375%float /\
  invertedAttempts row_fives_one_attempt "Number of Attempts" = 4%float /\
  rectangleScore (scoreRow row_fives_one_attempt) = 4.875%float.
Proof. vm_compute. repeat split. Qed.

Lemma cohenD_returns (arr1 arr2 : list number) : returns (cohenD arr1 arr2).
Proof.
  unfold cohenD.
  destruct (length arr1 =? 0)%nat eqn:E1; [eexists; reflexivity|].
  destruct (length arr2 =? 0)%nat eqn:E2; [eexists; reflexivity|].
  apply length_eqb_0_false in E1, E2.
  destruct (mean_returns _ E1) as [m1 ->], (mean_returns _ E2) as [m2 ->].
  destruct (std_returns _ E1) as [s1 ->], (std_returns _ E2) as [s2 ->].
  eexists; reflexivity.
Qed.

(** The aggregate scores throw exactly when no row has a Circle score
    other than 0 and NaN; the empty dataset is one such case. *)
Lemma calculateAggregateScores_throws_iff (data : list Row) :
  throws (calculateAggregateScores data) <->
  List.filter truthy_number (map circleScore (map scoreRow data)) = [].
Proof.
  unfold calculateAggregateScores.
  destruct data as [|row data].
  - split; [reflexivity|]. intros _. eexists; reflexivity.
  - cbn [map]. rewrite !mean_cons. cbn [mbind result_bind].
    rewrite <- mean_throws_iff.
    destruct (math.mean (List.filter _ _)) as [m|e]; cbn; split;
      intros [e' He]; try discriminate; eexists; reflexivity.
Qed.

(** C2 fails on the code. [calculateAggregateScores] throws mathjs's
    "Cannot calculate the mean of an empty array" on the empty dataset, on
    a dataset of blank rows, and on any dataset whose Circle scores are
    all 0, because the Circle mean is taken over the filtered scores. *)
Theorem calculateAggregateScores_throws :
  let e := Error "Cannot calculate the mean of an empty array" in
  calculateAggregateScores [] = Throw e /\
  calculateAggregateScores [row_blank] = Throw e /\
  calculateAggregateScores [row_blank; row_blank; row_blank] = Throw e /\
  calculateAggregateScores
    [<["Comfort" := VNum 4]> (<["Comfort_1" := VNum 3]> row_blank)] = Throw e.
Proof. vm_compute. repeat split. Qed.

(** C4 fails on the code. Cohen's d is 0 when either sample is empty, but
    it is NaN, which is not [>= 0], for any two samples of one observation
    each (the pooled variance is 0/0), and for two constant samples with
    the same mean; [interpretCohenD] then labels it "Large". *)
Theorem cohenD_nan :
  (forall arr, cohenD [] arr = Ok 0%float /\ cohenD arr [] = Ok 0%float) /\
  (forall x y : number, cohenD [x] [y] = Ok nan) /\
  cohenD [1]%float [2]%float = Ok nan /\
  cohenD [3; 3]%float [3; 3]%float = Ok nan /\
  (0 <=? nan)%float = false /\
  interpretCohenD nan = "Large".
Proof.
  split; [|split; [|repeat split]].
  - intros arr. split; [reflexivity|].
    unfold cohenD. destruct (length arr =? 0)%nat; reflexivity.
  - intros x y. unfold cohenD. cbn [length Nat.eqb orb].
    rewrite !mean_cons, !std_cons, !variance_single.
    destruct (is_nan (sum_sq_dev [x])), (is_nan (sum_sq_dev [y])); cbn;
      rewrite div_nan; reflexivity.
Qed.


(** ** The top choice *)

Section TopChoice.

Implicit Types r c ci h : number.

Lemma max_step_neg_infinity r ci :
  (ci <? r)%float = true -> Math.max_step neg_infinity r = r.
Proof.
  intros H. unfold Math.max_step.
  change (Math.is_neg_zero neg_infinity) with false.
  rewrite andb_false_r, (ltb_neg_infinity _ _ H). reflexivity.
Qed.

(** A step with an equal number keeps a number equal to the maximum. *)
Lemma max_step_tie r c :
  (r =? c)%float = true ->
  exists h, Math.max_step r c = h /\ (h =? r)%float = true.
Proof.
  intros H. destruct (eqb_is_nan _ _ H) as [Nr Nc].
  unfold Math.max_step.
  set (h := if Math.is_pos_zero c && Math.is_neg_zero r then c else r).
  assert (Hh : (h =? r)%float = true).
  { subst h. destruct (_ && _); [apply eqb_sym, H|apply eqb_refl, Nr]. }
  exists h. split; [|exact Hh].
  assert (Hle : (c <=? h)%float = true).
  { apply (leb_trans c r h); apply eqb_leb, eqb_sym; assumption. }
  rewrite (leb_not_ltb _ _ Hle). reflexivity.
Qed.

(** A step with a smaller number changes nothing. *)
Lemma max_step_smaller h r ci :
  (h =? r)%float = true -> (ci <? r)%float = true ->
  Math.max_step h ci = h.
Proof.
  intros Hh Hlt. unfold Math.max_step.
  assert (Hrh : (r <=? h)%float = true) by apply eqb_leb, eqb_sym, Hh.
  destruct (Math.is_pos_zero ci && Math.is_neg_zero h) eqn:Z.
  - exfalso. apply andb_prop in Z as [Zc Zh].
    unfold Math.is_pos_zero in Zc. unfold Math.is_neg_zero in Zh.
    apply andb_prop in Zc as [Zc _]. apply andb_prop in Zh as [Zh _].
    assert (Hle : (r <=? ci)%float = true).
    { apply (leb_trans r h ci); [exact Hrh|].
      apply (leb_trans h 0%float ci); apply eqb_leb;
        [exact Zh|apply eqb_sym, Zc]. }
    rewrite (leb_not_ltb _ _ Hle) in Hlt. discriminate.
  - assert (Hle : (ci <=? h)%float = true).
    { apply (leb_trans ci r h); [apply ltb_leb, Hlt|exact Hrh]. }
    rewrite (leb_not_ltb _ _ Hle). reflexivity.
Qed.

Lemma max_tie r c ci :
  (r =? c)%float = true -> (ci <? r)%float = true ->
  (Math.max [r; c; ci] =? r)%float = true.
Proof.
  intros Heq Hlt.
  destruct (ltb_is_nan _ _ Hlt) as [Nci Nr].
  destruct (eqb_is_nan _ _ Heq) as [_ Nc].
  unfold Math.max, Math.max_from.
  rewrite Nr, Nc, Nci, (max_step_neg_infinity r ci Hlt).
  destruct (max_step_tie r c Heq) as (h & -> & Hh).
  rewrite (max_step_smaller h r ci Hh Hlt). exact Hh.
Qed.

End TopChoice.

Lemma scoreRow_topChoice (row : Row) :
  let s := scoreRow row in
  let highest := Math.max [rectangleScore s; curvedScore s; circleScore s] in
  topChoice s =
    if (highest =? rectangleScore s)%float then "Rectangle Handle"
    else if (highest =? curvedScore s)%float then "Curved Handle"
    else "Circle Undergrip Handle".
Proof. reflexivity. Qed.

(** C5. When the Rectangle and Curved scores of a row are equal and both
    are strictly greater than its Circle score, the top choice is
    "Rectangle Handle". *)
Theorem topChoice_tie_rectangle (row : Row) :
  let s := scoreRow row in
  (rectangleScore s =? curvedScore s)%float = true ->
  (circleScore s <? rectangleScore s)%float = true ->
  (circleScore s <? curvedScore s)%float = true ->
  topChoice s = "Rectangle Handle".
Proof.
  intros s Heq Hlt _. subst s. rewrite scoreRow_topChoice. cbv zeta.
  rewrite (max_tie _ _ _ Heq Hlt). reflexivity.
Qed.

Lemma topChoice_tie_rectangle_witness :
  rectangleScore (scoreRow row_tie) = 4.875%float /\
  curvedScore (scoreRow row_tie) = 4.875%float /\
  circleScore (scoreRow row_tie) = 4.275%float /\
  topChoice (scoreRow row_tie) = "Rectangle Handle".
Proof.
  split; [reflexivity|]. split; [reflexivity|]. split; [reflexivity|].
  apply (topChoice_tie_rectangle row_tie); reflexivity.
Defined.


Lemma topChoice_cases (row : Row) :
  topChoice (scoreRow row) = "Rectangle Handle" \/
  topChoice (scoreRow row) = "Curved Handle" \/
  topChoice (scoreRow row) = "Circle Undergrip Handle".
Proof.
  rewrite scoreRow_topChoice. cbv zeta.
  destruct (_ =? rectangleScore _)%float; [left; reflexivity|].
  destruct (_ =? curvedScore _)%float; [right; left|right; right]; reflexivity.
Qed.

Lemma tallyTopChoices_total (data : list Row) :
  tallyTotal (tallyTopChoices (map scoreRow data)) = length data.
Proof.
  unfold tallyTotal, tallyTopChoices, countTopChoice. cbn.
  induction data as [|row data IH]; [reflexivity|].
  cbn [map List.filter length].
  destruct (topChoice_cases row) as [-> | [-> | ->]]; cbn; lia.
Qed.

Lemma calculateAggregateScores_returns (data : list Row) (r : AggregateScores) :
  calculateAggregateScores data = Ok r ->
  topChoiceCounts r = tallyTopChoices (map scoreRow data) /\
  detail r = map scoreRow data.
Proof.
  unfold calculateAggregateScores.
  destruct (math.mean (map rectangleScore _)); [|discriminate].
  destruct (math.mean (map curvedScore _)); [|discriminate].
  destruct (math.mean (List.filter _ _)); [|discriminate].
  cbn. intros [= <-]. split; reflexivity.
Qed.

(** C10. Every row, a blank one or one with NaN scores included, gets as
    top choice one of "Rectangle Handle", "Curved Handle" and "Circle
    Undergrip Handle"; so the three counts of the tally add up to the
    number of rows, also in the result of [calculateAggregateScores]. *)
Theorem topChoice_total (data : list Row) :
  Forall (fun s =>
            topChoice s = "Rectangle Handle" \/
            topChoice s = "Curved Handle" \/
            topChoice s = "Circle Undergrip Handle") (map scoreRow data) /\
  tallyTotal (tallyTopChoices (map scoreRow data)) = length data /\
  (forall r, calculateAggregateScores data = Ok r ->
     tallyTotal (topChoiceCounts r) = length data /\
     length (detail r) = length data) /\
  topChoice (scoreRow row_blank) = "Rectangle Handle" /\
  (is_nan (rectangleScore (scoreRow row_comment)) = true /\
   topChoice (scoreRow row_comment) = "Circle Undergrip Handle").
Proof.
  split; [|split; [|split; [|split; [reflexivity|split; reflexivity]]]].
  - apply List.Forall_forall. intros s Hs.
    apply in_map_iff in Hs as (row & <- & _). apply topChoice_cases.
  - apply tallyTopChoices_total.
  - intros r Hr. apply calculateAggregateScores_returns in Hr as [-> ->].
    split; [apply tallyTopChoices_total|apply length_map].
Qed.

Lemma topChoice_total_witness :
  exists r,
    calculateAggregateScores [row_tie; row_comment; row_fives_one_attempt] =
      Ok r /\
    topChoiceCounts r = mkPerHandle 2 0 1 /\
    tallyTotal (topChoiceCounts r) = 3.
Proof.
  destruct (calculateAggregateScores
              [row_tie; row_comment; row_fives_one_attempt]) as [r|e] eqn:E;
    [|vm_compute in E; discriminate].
  exists r. split; [reflexivity|]. split.
  - vm_compute in E. injection E as <-. reflexivity.
  - destruct (topChoice_total [row_tie; row_comment; row_fives_one_attempt])
      as (_ & _ & H & _).
    apply (H r E).
Defined.


(** ** The cleanup of the attempt fields *)

Lemma span_digits_spec (s : string) :
  let (run, tail) := span_digits s in
  s = (run ++ tail)%string /\ all_digits run = true /\
  starts_with_digit tail = false.
Proof.
  induction s as [|c s IH]; [repeat split|].
  cbn [span_digits]. destruct (is_digit c) eqn:D.
  - destruct (span_digits s) as [run tail]. destruct IH as (-> & Hall & Htail).
    repeat split; [|exact Htail].
    unfold all_digits. cbn. rewrite D. exact Hall.
  - repeat split. exact D.
Qed.

Lemma leadingDigits_spec (s numericPart : string) :
  leadingDigits s = Some numericPart ->
  numericPart <> "" /\ all_digits numericPart = true /\
  exists rest, s = (numericPart ++ rest)%string /\
               starts_with_digit rest = false.
Proof.
  unfold leadingDigits. pose proof (span_digits_spec s) as H.
  destruct (span_digits s) as [run tail]. destruct H as (-> & Hall & Htail).
  destruct (String.eqb_spec run ""); [discriminate|].
  intros [= <-]. split; [assumption|]. split; [assumption|].
  exists tail. split; [reflexivity|assumption].
Qed.

Lemma leadingDigits_none (s : string) :
  leadingDigits s = None <-> starts_with_digit s = false.
Proof.
  unfold leadingDigits. destruct s as [|c s]; [split; reflexivity|].
  cbn [span_digits starts_with_digit]. destruct (is_digit c).
  - destruct (span_digits s). cbn. split; discriminate.
  - cbn. split; reflexivity.
Qed.

Lemma cleanField_lookup_ne (row : Row) (field f : string) :
  f <> field -> cleanField row field !! f = row !! f.
Proof.
  intros Hne. unfold cleanField.
  destruct (get row field) as [| | | |s]; try reflexivity.
  destruct (truthy (VStr s)); [|reflexivity].
  destruct (leadingDigits s); [|reflexivity].
  apply lookup_insert_ne. congruence.
Qed.

Lemma cleanField_lookup_eq (row : Row) (field : string) :
  cleanField row field !! field = cleanedCell (row !! field).
Proof.
  unfold cleanField, get, cleanedCell.
  destruct (row !! field) as [[| | | |s]|] eqn:E; cbn; try (rewrite E; reflexivity).
  destruct (String.eqb_spec s "") as [->|Hs]; cbn.
  - rewrite E. reflexivity.
  - destruct (leadingDigits s); [apply lookup_insert_eq|exact E].
Qed.

Lemma cleanRow_lookup_other (row : Row) (f : string) :
  f ∉ attemptFields -> cleanRow row !! f = row !! f.
Proof.
  intros Hf. unfold cleanRow, attemptFields in *. cbn [fold_left].
  rewrite !cleanField_lookup_ne; [reflexivity|..];
    intros ->; apply Hf; set_solver.
Qed.

Lemma cleanRow_lookup_attempt (row : Row) (f : string) :
  f ∈ attemptFields -> cleanRow row !! f = cleanedCell (row !! f).
Proof.
  intros Hf. unfold cleanRow, attemptFields in *. cbn [fold_left].
  repeat match type of Hf with
         | _ ∈ _ :: _ => apply elem_of_cons in Hf as [->|Hf]
         | _ ∈ [] => apply elem_of_nil in Hf; contradiction
         end.
  - rewrite !cleanField_lookup_ne by discriminate.
    apply cleanField_lookup_eq.
  - rewrite cleanField_lookup_ne by discriminate.
    rewrite cleanField_lookup_eq, cleanField_lookup_ne by discriminate.
    reflexivity.
  - rewrite cleanField_lookup_eq, !cleanField_lookup_ne by discriminate.
    reflexivity.
Qed.

Lemma cleanedCell_is_Some (cell : option value) :
  is_Some (cleanedCell cell) <-> is_Some cell.
Proof.
  destruct cell as [[| | | |s]|]; cbn; try reflexivity.
  destruct (leadingDigits s); split; intros _; eexists; reflexivity.
Qed.

Lemma cleanedCell_changed (cell : option value) :
  cleanedCell cell <> cell ->
  exists s numericPart,
    cell = Some (VStr s) /\ leadingDigits s = Some numericPart /\
    cleanedCell cell = Some (VNum (parseInt10 numericPart)).
Proof.
  destruct cell as [[| | | |s]|]; cbn; try congruence.
  destruct (leadingDigits s) as [d|] eqn:E; [|congruence].
  intros _. exists s, d. rewrite E. split; [reflexivity|]. split; reflexivity.
Qed.

Lemma cleanRow_dom (row : Row) : dom (cleanRow row) = dom row.
Proof.
  apply set_eq. intros f. rewrite !elem_of_dom.
  destruct (decide (f ∈ attemptFields)) as [Hf|Hf].
  - rewrite (cleanRow_lookup_attempt row f Hf). apply cleanedCell_is_Some.
  - rewrite (cleanRow_lookup_other row f Hf). reflexivity.
Qed.

(** C9. The cleanup keeps the rows and their columns, and leaves every
    cell outside 'Number of Attempts', 'Number of Attempts_1' and 'Number
    of Attempts_2' as parsed; a cell is changed only if it is one of these
    and holds a string that starts with digits, and such a cell becomes
    the integer its leading run of digits denotes. *)
Theorem cleanData_frame (data : list Row) (i : nat) (row : Row) :
  data !! i = Some row ->
  length (cleanData data) = length data /\
  cleanData data !! i = Some (cleanRow row) /\
  dom (cleanRow row) = dom row /\
  (forall f, f ∉ attemptFields -> cleanRow row !! f = row !! f) /\
  (forall f, cleanRow row !! f <> row !! f ->
     f ∈ attemptFields /\
     exists s numericPart rest,
       row !! f = Some (VStr s) /\
       s = (numericPart ++ rest)%string /\
       numericPart <> "" /\ all_digits numericPart = true /\
       starts_with_digit rest = false /\
       cleanRow row !! f = Some (VNum (of_Z (digits_value numericPart)))) /\
  (forall f s numericPart,
     f ∈ attemptFields -> row !! f = Some (VStr s) ->
     leadingDigits s = Some numericPart ->
     cleanRow row !! f = Some (VNum (of_Z (digits_value numericPart)))) /\
  (forall f s,
     row !! f = Some (VStr s) -> starts_with_digit s = false ->
     cleanRow row !! f = row !! f).
Proof.
  intros Hrow.
  split; [apply length_map|].
  split; [unfold cleanData; rewrite list_lookup_fmap, Hrow; reflexivity|].
  split; [apply cleanRow_dom|].
  split; [intros f; apply cleanRow_lookup_other|].
  split; [|split].
  - intros f Hchanged.
    destruct (decide (f ∈ attemptFields)) as [Hf|Hf];
      [|rewrite (cleanRow_lookup_other row f Hf) in Hchanged; congruence].
    split; [exact Hf|].
    rewrite (cleanRow_lookup_attempt row f Hf) in Hchanged |- *.
    destruct (cleanedCell_changed _ Hchanged) as (s & d & Hcell & Hd & Hnew).
    destruct (leadingDigits_spec s d Hd) as (Hne & Hall & rest & Hs & Hrest).
    exists s, d, rest. repeat split; assumption.
  - intros f s d Hf Hcell Hd.
    rewrite (cleanRow_lookup_attempt row f Hf), Hcell. cbn. rewrite Hd.
    reflexivity.
  - intros f s Hcell Hs. apply leadingDigits_none in Hs.
    destruct (decide (f ∈ attemptFields)) as [Hf|Hf];
      [|apply cleanRow_lookup_other, Hf].
    rewrite (cleanRow_lookup_attempt row f Hf), Hcell. cbn. rewrite Hs.
    reflexivity.
Qed.

Lemma cleanData_frame_witness :
  cleanData [row_commented_attempts] !! 0 =
    Some (cleanRow row_commented_attempts) /\
  cleanRow row_commented_attempts !! "Number of Attempts" = Some (VNum 3) /\
  cleanRow row_commented_attempts !! "Number of Attempts_1" =
    Some (VStr "none") /\
  cleanRow row_commented_attempts !! "Number of Attempts_2" = Some (VNum 2) /\
  cleanRow row_commented_attempts !! "Comfort" = Some (VStr "4 or so").
Proof.
  destruct (cleanData_frame [row_commented_attempts] 0 row_commented_attempts
              eq_refl) as (_ & Hi & _ & Hother & _ & Hattempt & Hkept).
  split; [exact Hi|]. split; [|split; [|split]].
  - rewrite (Hattempt "Number of Attempts" "3 (slipped twice)" "3");
      [reflexivity| |reflexivity|reflexivity].
    unfold attemptFields. apply elem_of_cons. left. reflexivity.
  - apply (Hkept "Number of Attempts_1" "none"); reflexivity.
  - reflexivity.
  - rewrite Hother; [reflexivity|].
    unfold attemptFields. intros H.
    repeat (apply elem_of_cons in H as [H|H]; [discriminate|]).
    apply elem_of_nil in H. exact H.
Defined.

(** * Further properties *)

(** ** More on binary64 arithmetic

    The sign of a rounded result is the one passed to the rounding, so
    absolute values do not depend on it; addition is commutative. *)

Section SpecArith.

Implicit Types x y z : spec_float.

Lemma SFabs_binary_round_aux (s s' : bool) (m e : Z) (l : location) :
  SFabs (binary_round_aux prec emax s m e l) =
  SFabs (binary_round_aux prec emax s' m e l).
Proof.
  unfold binary_round_aux.
  destruct (shr_fexp prec emax m e l) as [mrs' e'].
  destruct (shr_fexp prec emax _ e' loc_Exact) as [mrs'' e''].
  destruct (shr_m mrs'') as [|p|p]; [reflexivity| |reflexivity].
  destruct (e'' <=? emax - prec)%Z; reflexivity.
Qed.

Lemma SFabs_binary_normalize_opp (z e : Z) (s : bool) :
  SFabs (binary_normalize prec emax (- z) e s) =
  SFabs (binary_normalize prec emax z e s).
Proof.
  destruct z as [|p|p]; [reflexivity| |];
    [change (- Z.pos p)%Z with (Z.neg p)|change (- Z.neg p)%Z with (Z.pos p)];
    unfold binary_normalize, binary_round; destruct (shl_align _ _ _);
    apply SFabs_binary_round_aux.
Qed.

Lemma SFadd_comm x y : SFadd prec emax x y = SFadd prec emax y x.
Proof.
  destruct x as [[]|[]| |sx mx ex], y as [[]|[]| |sy my ey]; try reflexivity.
  cbn [SFadd]. rewrite (Z.min_comm ey ex), Z.add_comm. reflexivity.
Qed.

Lemma SFabs_sub_comm x y :
  SFabs (SFsub prec emax x y) = SFabs (SFsub prec emax y x).
Proof.
  destruct x as [[]|[]| |sx mx ex], y as [[]|[]| |sy my ey]; try reflexivity.
  cbn [SFsub]. rewrite (Z.min_comm ey ex).
  rewrite <- SFabs_binary_normalize_opp. f_equal. f_equal. lia.
Qed.

Lemma SFabs_div x x' y :
  SFabs x = SFabs x' ->
  SFabs (SFdiv prec emax x y) = SFabs (SFdiv prec emax x' y).
Proof.
  destruct x as [sx|sx| |sx mx ex], x' as [sx'|sx'| |sx' mx' ex'];
    cbn [SFabs]; intros H; try discriminate;
    destruct y as [sy|sy| |sy my ey]; try reflexivity.
  injection H as -> ->. cbn [SFdiv].
  destruct (SFdiv_core_binary _ _ _ _ _ _) as [[mz ez] lz].
  apply SFabs_binary_round_aux.
Qed.

Lemma SFcompare_total x y :
  x <> S754_nan -> y <> S754_nan -> exists c, SFcompare x y = Some c.
Proof.
  destruct x as [[]|[]| |[] m e], y as [[]|[]| |[] m' e']; cbn;
    intros Hx Hy; try congruence; eexists; reflexivity.
Qed.

Lemma SFcompare_Eq_leb x y :
  SFleb x y = true -> SFleb y x = true -> SFeqb x y = true.
Proof.
  unfold SFleb, SFeqb. rewrite (SFcompare_flip x y).
  destruct (SFcompare x y) as [[]|]; cbn; congruence.
Qed.

Lemma SFltb_false_leb x y :
  x <> S754_nan -> y <> S754_nan -> SFltb x y = false -> SFleb y x = true.
Proof.
  intros Hx Hy. unfold SFltb, SFleb. rewrite (SFcompare_flip x y).
  destruct (SFcompare_total x y Hx Hy) as [c ->].
  destruct c; cbn; congruence.
Qed.

Lemma SFleb_neg_infinity x :
  x <> S754_nan -> SFleb (S754_infinity true) x = true.
Proof. destruct x as [[]|[]| |[] m e]; cbn; congruence. Qed.

End SpecArith.

Section FloatArith.

Implicit Types x y z : number.

Lemma add_comm x y : (x + y)%float = (y + x)%float.
Proof.
  apply Prim2SF_inj. rewrite !FloatAxioms.add_spec. apply SFadd_comm.
Qed.

Lemma abs_sub_comm x y : abs (x - y) = abs (y - x).
Proof.
  apply Prim2SF_inj. rewrite !FloatAxioms.abs_spec, !FloatAxioms.sub_spec.
  apply SFabs_sub_comm.
Qed.

Lemma abs_div x x' y : abs x = abs x' -> abs (x / y) = abs (x' / y).
Proof.
  intros H. apply Prim2SF_inj.
  rewrite !FloatAxioms.abs_spec, !FloatAxioms.div_spec. apply SFabs_div.
  rewrite <- !FloatAxioms.abs_spec, H. reflexivity.
Qed.

Lemma is_nan_Prim2SF x : is_nan x = false -> Prim2SF x <> S754_nan.
Proof.
  unfold is_nan. rewrite FloatAxioms.eqb_spec. intros H E.
  rewrite E in H. discriminate.
Qed.

Lemma ltb_false_leb x y :
  is_nan x = false -> is_nan y = false ->
  (x <? y)%float = false -> (y <=? x)%float = true.
Proof.
  intros Hx Hy. rewrite FloatAxioms.ltb_spec, FloatAxioms.leb_spec.
  apply SFltb_false_leb; apply is_nan_Prim2SF; assumption.
Qed.

Lemma leb_antisym x y :
  (x <=? y)%float = true -> (y <=? x)%float = true -> (x =? y)%float = true.
Proof.
  rewrite !FloatAxioms.leb_spec, FloatAxioms.eqb_spec. apply SFcompare_Eq_leb.
Qed.

Lemma leb_refl x : is_nan x = false -> (x <=? x)%float = true.
Proof. intros H. apply eqb_leb, eqb_refl, H. Qed.

Lemma neg_infinity_leb x : is_nan x = false -> (neg_infinity <=? x)%float = true.
Proof.
  intros H. rewrite FloatAxioms.leb_spec.
  apply SFleb_neg_infinity, is_nan_Prim2SF, H.
Qed.

Lemma eqb_nan_l x y : is_nan x = true -> (x =? y)%float = false.
Proof.
  intros H. rewrite (is_nan_eq x H), FloatAxioms.eqb_spec. reflexivity.
Qed.

Lemma ltb_nan_r x y : is_nan y = true -> (x <? y)%float = false.
Proof.
  intros H. rewrite (is_nan_eq y H), FloatAxioms.ltb_spec.
  change (Prim2SF nan) with S754_nan.
  destruct (Prim2SF x) as [[]|[]| |[] m e]; reflexivity.
Qed.

Lemma ltb_leb_trans_false x y z :
  (x <? y)%float = true -> (y <=? z)%float = true -> (z =? x)%float = false.
Proof.
  intros Hxy Hyz.
  destruct (z =? x)%float eqn:E; [|reflexivity].
  assert (Hle : (y <=? x)%float = true)
    by (apply (leb_trans y z x Hyz), eqb_leb, E).
  rewrite (leb_not_ltb _ _ Hle) in Hxy. discriminate.
Qed.

End FloatArith.

(** ** The order of the two samples *)

(** Cohen's d does not depend on the order in which the two samples are
    given. *)
Theorem cohenD_symmetric (arr1 arr2 : list number) :
  cohenD arr1 arr2 = cohenD arr2 arr1.
Proof.
  unfold cohenD. rewrite (orb_comm (length arr2 =? 0)%nat).
  destruct ((length arr1 =? 0)%nat || (length arr2 =? 0)%nat) eqn:E;
    [reflexivity|].
  apply orb_false_elim in E as [E1 E2]. apply length_eqb_0_false in E1, E2.
  destruct (mean_returns _ E1) as [m1 ->], (mean_returns _ E2) as [m2 ->].
  destruct (std_returns _ E1) as [s1 ->], (std_returns _ E2) as [s2 ->].
  cbn [mbind result_bind].
  unfold Math.abs.
  rewrite (abs_sub_comm m2 m1).
  rewrite (add_comm ((of_nat (length arr2) - 1) * s2 * s2)%float).
  rewrite (add_comm (of_nat (length arr2)) (of_nat (length arr1))).
  reflexivity.
Qed.

(** On two arrays of numbers the t-test returns a result, and swapping
    the two arrays keeps |t| and the p-value bucket. *)
Theorem tTest_symmetric (arr1 arr2 : list number) :
  exists r r',
    tTest arr1 arr2 = Ok r /\ tTest arr2 arr1 = Ok r' /\
    Math.abs (t r') = Math.abs (t r) /\ pValue r' = pValue r.
Proof.
  unfold tTest. rewrite (orb_comm (length arr2 =? 0)%nat).
  destruct ((length arr1 =? 0)%nat || (length arr2 =? 0)%nat) eqn:E.
  { do 2 eexists. repeat split. }
  apply orb_false_elim in E as [E1 E2]. apply length_eqb_0_false in E1, E2.
  destruct (mean_returns _ E1) as [m1 ->], (mean_returns _ E2) as [m2 ->].
  destruct (variance_returns _ E1) as [v1 ->],
    (variance_returns _ E2) as [v2 ->].
  cbn [mbind result_bind]. do 2 eexists.
  split; [reflexivity|]. split; [reflexivity|]. cbn [t pValue].
  assert (H : Math.abs
                ((m2 - m1) /
                 Math.sqrt (v2 / of_nat (length arr2) +
                            v1 / of_nat (length arr1)))%float =
              Math.abs
                ((m1 - m2) /
                 Math.sqrt (v1 / of_nat (length arr1) +
                            v2 / of_nat (length arr2)))%float).
  { rewrite (add_comm (v2 / _)%float). apply abs_div, abs_sub_comm. }
  split; [exact H|]. unfold pValueOf. rewrite H. reflexivity.
Qed.

(** ** The top choice, case by case *)

Section MaxFrom.

Implicit Types h x : number.

Lemma max_from_nan h (args : list number) :
  existsb is_nan args = true -> Math.max_from h args = nan.
Proof.
  revert h. induction args as [|x args IH]; intros h; cbn; [discriminate|].
  destruct (is_nan x); [reflexivity|]. cbn. apply IH.
Qed.

(** A step returns one of its two numbers, and one that is not below
    either. *)
Lemma max_step_spec h x :
  is_nan h = false -> is_nan x = false ->
  let h' := Math.max_step h x in
  (h' = h \/ h' = x) /\
  (h <=? h')%float = true /\ (x <=? h')%float = true.
Proof.
  intros Nh Nx. unfold Math.max_step.
  destruct (Math.is_pos_zero x && Math.is_neg_zero h) eqn:Z.
  - apply andb_prop in Z as [Zx Zh].
    apply andb_prop in Zx as [Zx _]. apply andb_prop in Zh as [Zh _].
    rewrite (leb_not_ltb x x (leb_refl x Nx)). cbv zeta.
    split; [right; reflexivity|]. split; [|apply leb_refl, Nx].
    apply (leb_trans h 0%float x); apply eqb_leb; [exact Zh|apply eqb_sym, Zx].
  - cbv zeta. destruct (h <? x)%float eqn:L.
    + split; [right; reflexivity|].
      split; [apply ltb_leb, L|apply leb_refl, Nx].
    + split; [left; reflexivity|].
      split; [apply leb_refl, Nh|apply ltb_false_leb; assumption].
Qed.

Lemma max_from_spec (args : list number) h :
  is_nan h = false -> existsb is_nan args = false ->
  let m := Math.max_from h args in
  is_nan m = false /\
  (m = h \/ In m args) /\
  (h <=? m)%float = true /\
  Forall (fun x => (x <=? m)%float = true) args.
Proof.
  revert h. induction args as [|x args IH]; intros h Nh Nargs; cbn.
  - split; [exact Nh|]. split; [left; reflexivity|].
    split; [apply leb_refl, Nh|constructor].
  - cbn in Nargs. apply orb_false_elim in Nargs as [Nx Nargs]. rewrite Nx.
    destruct (max_step_spec h x Nh Nx) as (Hcase & Hh & Hx).
    assert (Nh' : is_nan (Math.max_step h x) = false)
      by (destruct Hcase as [-> | ->]; assumption).
    destruct (IH _ Nh' Nargs) as (Nm & Hin & Hle & Hall).
    split; [exact Nm|]. split; [|split].
    + destruct Hin as [-> | Hin]; [|right; right; exact Hin].
      destruct Hcase as [-> | ->]; [left|right; left]; reflexivity.
    + apply (leb_trans _ _ _ Hh Hle).
    + constructor; [apply (leb_trans _ _ _ Hx Hle)|exact Hall].
Qed.

End MaxFrom.

Lemma leb_false_ltb (x y : number) :
  is_nan x = false -> is_nan y = false ->
  (x <=? y)%float = false -> (y <? x)%float = true.
Proof.
  intros Hx Hy H. destruct (y <? x)%float eqn:L; [reflexivity|].
  rewrite (ltb_false_leb y x Hy Hx L) in H. discriminate.
Qed.

Lemma topChoice_by_comparisons (row : Row) :
  let s := scoreRow row in
  let r := rectangleScore s in
  let c := curvedScore s in
  let ci := circleScore s in
  topChoice s =
    if is_nan r || is_nan c || is_nan ci then "Circle Undergrip Handle"
    else if (c <=? r)%float && (ci <=? r)%float then "Rectangle Handle"
    else if (ci <=? c)%float then "Curved Handle"
    else "Circle Undergrip Handle".
Proof.
  intros s r c ci. subst s. rewrite scoreRow_topChoice. cbv zeta.
  fold r c ci.
  destruct (is_nan r || is_nan c || is_nan ci) eqn:N.
  - assert (Hm : Math.max [r; c; ci] = nan).
    { apply max_from_nan. cbn [existsb].
      rewrite orb_false_r, orb_assoc. exact N. }
    rewrite Hm, !(eqb_nan_l nan) by reflexivity. reflexivity.
  - apply orb_false_elim in N as [N Nci]. apply orb_false_elim in N as [Nr Nc].
    destruct (max_from_spec [r; c; ci] neg_infinity eq_refl) as
      (Nm & Hin & _ & Hall).
    { cbn [existsb]. rewrite Nr, Nc, Nci. reflexivity. }
    fold (Math.max [r; c; ci]) in Nm, Hin, Hall.
    set (m := Math.max [r; c; ci]) in *.
    apply Forall_cons in Hall as [Hr Hall].
    apply Forall_cons in Hall as [Hc Hall].
    apply Forall_cons in Hall as [Hci _].
    assert (Hbelow : forall y : number,
              is_nan y = false -> (r <=? y)%float = true ->
              (c <=? y)%float = true -> (ci <=? y)%float = true ->
              (m <=? y)%float = true).
    { intros y Ny Hry Hcy Hciy.
      destruct Hin as [-> | [<- | [<- | [<- | []]]]]; try assumption.
      apply neg_infinity_leb, Ny. }
    destruct ((c <=? r)%float && (ci <=? r)%float) eqn:R.
    + apply andb_prop in R as [Hcr Hcir].
      rewrite (leb_antisym m r); [reflexivity| |exact Hr].
      apply Hbelow; [exact Nr|apply leb_refl, Nr|exact Hcr|exact Hcir].
    + assert (Hmr : (m =? r)%float = false).
      { destruct (m =? r)%float eqn:E; [|reflexivity].
        apply eqb_leb in E.
        rewrite (leb_trans c m r Hc E), (leb_trans ci m r Hci E) in R.
        discriminate. }
      rewrite Hmr. destruct (ci <=? c)%float eqn:C.
      * rewrite (leb_antisym m c); [reflexivity| |exact Hc].
        apply Hbelow; [exact Nc| |apply leb_refl, Nc|exact C].
        destruct (c <=? r)%float eqn:Hcr.
        -- rewrite (leb_trans ci c r C Hcr) in R. discriminate.
        -- apply ltb_leb, leb_false_ltb; assumption.
      * destruct (m =? c)%float eqn:E; [|reflexivity].
        apply eqb_leb in E. rewrite (leb_trans ci m c Hci E) in C.
        discriminate.
Qed.

(** The top choice of a row, read off pairwise comparisons of its three
    scores: Circle when a score is NaN; otherwise Rectangle when its score
    is not below the other two, else Curved when its score is not below
    Circle's, else Circle. *)
Theorem topChoice_decision (row : Row) :
  let s := scoreRow row in
  let r := rectangleScore s in
  let c := curvedScore s in
  let ci := circleScore s in
  topChoice s =
    if is_nan r || is_nan c || is_nan ci then "Circle Undergrip Handle"
    else if (c <=? r)%float && (ci <=? r)%float then "Rectangle Handle"
    else if (ci <=? c)%float then "Curved Handle"
    else "Circle Undergrip Handle".
Proof. intros s r c ci. subst s r c ci. apply topChoice_by_comparisons. Qed.

(** ** A cell that is not a number *)

Section NanPropagation.

Implicit Types x : number.





End NanPropagation.


(** A no-break space before a text is trimmed like a space, and a cell
    that holds nothing else counts as 0. *)
Lemma StringToNumber_no_break_space (s : string) :
  StringToNumber (String "194" (String "160" s)) = StringToNumber s.
Proof. reflexivity. Qed.

Lemma metric_no_break_space (row : Row) (field : string) :
  get row field = VStr (String "194" (String "160" EmptyString)) ->
  metric row field = 0%float /\ invertedAttempts row field = 5%float.
Proof.
  intros Hcell. unfold metric, invertedAttempts, or_else. rewrite Hcell.
  split; reflexivity.
Qed.



(** ** The cleanup, once more *)

Lemma cleanedCell_idempotent (cell : option value) :
  cleanedCell (cleanedCell cell) = cleanedCell cell.
Proof.
  destruct cell as [[| | | |s]|]; try reflexivity. cbn.
  destruct (leadingDigits s) eqn:E; [reflexivity|]. cbn. rewrite E.
  reflexivity.
Qed.

Lemma cleanRow_idempotent (row : Row) : cleanRow (cleanRow row) = cleanRow row.
Proof.
  apply map_eq. intros f.
  destruct (decide (f ∈ attemptFields)) as [Hf|Hf].
  - rewrite !(cleanRow_lookup_attempt _ f Hf). apply cleanedCell_idempotent.
  - rewrite !(cleanRow_lookup_other _ f Hf). reflexivity.
Qed.

Lemma cleanRow_no_leading_digits (row : Row) (f s : string) :
  f ∈ attemptFields -> cleanRow row !! f = Some (VStr s) ->
  starts_with_digit s = false.
Proof.
  intros Hf. rewrite (cleanRow_lookup_attempt row f Hf).
  destruct (row !! f) as [[| | | |s']|]; cbn; try discriminate.
  destruct (leadingDigits s') eqn:E; [discriminate|].
  intros [= <-]. apply leadingDigits_none, E.
Qed.

(** After the cleanup no attempt cell of any row is a text that starts
    with a digit, so cleaning cleaned rows changes nothing. *)
Theorem cleanData_idempotent (data : list Row) :
  cleanData (cleanData data) = cleanData data /\
  Forall (fun row =>
            forall f s, f ∈ attemptFields -> row !! f = Some (VStr s) ->
                        starts_with_digit s = false)
         (cleanData data).
Proof.
  unfold cleanData. split.
  - rewrite map_map. apply map_ext. intros row. apply cleanRow_idempotent.
  - apply List.Forall_forall. intros row' Hrow'.
    apply in_map_iff in Hrow' as (row & <- & _).
    intros f s. apply cleanRow_no_leading_digits.
Qed.

(** ** Preference rankings *)

Lemma countRanking_counters (row : Row) (n0 n1 n2 : string)
  (a1 a2 a3 b1 b2 b3 c1 c2 c3 : nat) :
  let hit handle rank :=
    Nat.b2n (strictEqualsNumber (get row (rankingKey handle)) rank) in
  countRanking
    [Ranking.mk n0 a1 a2 a3; Ranking.mk n1 b1 b2 b3; Ranking.mk n2 c1 c2 c3]
    row =
  [Ranking.mk n0 (hit "Rectangle Handle" 1%float + a1)
     (hit "Rectangle Handle" 2%float + a2)
     (hit "Rectangle Handle" 3%float + a3);
   Ranking.mk n1 (hit "Curved Handle" 1%float + b1)
     (hit "Curved Handle" 2%float + b2)
     (hit "Curved Handle" 3%float + b3);
   Ranking.mk n2 (hit "Circle Undergrip Handle" 1%float + c1)
     (hit "Circle Undergrip Handle" 2%float + c2)
     (hit "Circle Undergrip Handle" 3%float + c3)].
Proof.
  unfold countRanking. cbv zeta.
  change (rankingKey "Rectangle Handle")
    with "Handle Preference Ranking  [Rectangle Handle]".
  change (rankingKey "Curved Handle")
    with "Handle Preference Ranking  [Curved Handle]".
  change (rankingKey "Circle Undergrip Handle")
    with "Handle Preference Ranking  [Circle Undergrip Handle]".
  repeat match goal with
         | |- context [strictEqualsNumber ?v ?x] =>
             destruct (strictEqualsNumber v x)
         end; reflexivity.
Qed.

Lemma countRank_cons (row : Row) (data : list Row) (key : string)
  (rank : number) :
  countRank (row :: data) key rank =
  Nat.b2n (strictEqualsNumber (get row key) rank) + countRank data key rank.
Proof.
  unfold countRank. cbn [List.filter].
  destruct (strictEqualsNumber (get row key) rank); reflexivity.
Qed.

Lemma fold_countRanking (data : list Row) (n0 n1 n2 : string)
  (a1 a2 a3 b1 b2 b3 c1 c2 c3 : nat) :
  let count handle rank := countRank data (rankingKey handle) rank in
  fold_left countRanking data
    [Ranking.mk n0 a1 a2 a3; Ranking.mk n1 b1 b2 b3; Ranking.mk n2 c1 c2 c3] =
  [Ranking.mk n0 (a1 + count "Rectangle Handle" 1%float)
     (a2 + count "Rectangle Handle" 2%float)
     (a3 + count "Rectangle Handle" 3%float);
   Ranking.mk n1 (b1 + count "Curved Handle" 1%float)
     (b2 + count "Curved Handle" 2%float)
     (b3 + count "Curved Handle" 3%float);
   Ranking.mk n2 (c1 + count "Circle Undergrip Handle" 1%float)
     (c2 + count "Circle Undergrip Handle" 2%float)
     (c3 + count "Circle Undergrip Handle" 3%float)].
Proof.
  cbv zeta. revert a1 a2 a3 b1 b2 b3 c1 c2 c3.
  induction data as [|row data IH]; intros.
  - cbn [fold_left]. unfold countRank. cbn [List.filter length].
    rewrite !Nat.add_0_r. reflexivity.
  - cbn [fold_left]. rewrite countRanking_counters. cbv zeta. rewrite IH.
    rewrite !countRank_cons.
    repeat (f_equal; try lia).
Qed.

(** The counters of the ranking chart are the numbers of rows whose
    ranking cell is the number 1, 2 or 3; [firstChoice] is the count the
    overview cards take with [filter]. *)
Theorem prepareRankingData_counts (data : list Row) :
  let count handle rank := countRank data (rankingKey handle) rank in
  prepareRankingData data =
  [Ranking.mk "Rectangle Handle" (count "Rectangle Handle" 1%float)
     (count "Rectangle Handle" 2%float) (count "Rectangle Handle" 3%float);
   Ranking.mk "Curved Handle" (count "Curved Handle" 1%float)
     (count "Curved Handle" 2%float) (count "Curved Handle" 3%float);
   Ranking.mk "Circle Undergrip Handle"
     (count "Circle Undergrip Handle" 1%float)
     (count "Circle Undergrip Handle" 2%float)
     (count "Circle Undergrip Handle" 3%float)].
Proof. unfold prepareRankingData. apply fold_countRanking. Qed.

Lemma strictEqualsNumber_apart (v : value) (x y : number) :
  (x <? y)%float = true ->
  strictEqualsNumber v x = true -> strictEqualsNumber v y = false.
Proof.
  intros Hxy. destruct v as [| | |z|]; cbn; try reflexivity.
  intros Hx. destruct (z =? y)%float eqn:E; [exfalso|reflexivity].
  assert (Hle : (y <=? x)%float = true).
  { apply (leb_trans y z x); apply eqb_leb; [apply eqb_sym, E|exact Hx]. }
  rewrite (leb_not_ltb _ _ Hle) in Hxy. discriminate.
Qed.

Lemma countRank_total (data : list Row) (key : string) :
  countRank data key 1 + countRank data key 2 + countRank data key 3 <=
  length data.
Proof.
  induction data as [|row data IH]; [cbn; lia|].
  rewrite !countRank_cons. cbn [length].
  pose proof (strictEqualsNumber_apart (get row key) 1%float 2%float eq_refl)
    as H12.
  pose proof (strictEqualsNumber_apart (get row key) 1%float 3%float eq_refl)
    as H13.
  pose proof (strictEqualsNumber_apart (get row key) 2%float 3%float eq_refl)
    as H23.
  destruct (strictEqualsNumber (get row key) 1);
    destruct (strictEqualsNumber (get row key) 2);
    destruct (strictEqualsNumber (get row key) 3);
    try (specialize (H12 eq_refl)); try (specialize (H13 eq_refl));
    try (specialize (H23 eq_refl)); try discriminate; cbn; lia.
Qed.

(** For each handle the three bars of the ranking chart together never
    exceed the number of rows: a row counts for at most one rank. *)
Theorem prepareRankingData_bounded (data : list Row) :
  length (prepareRankingData data) = 3 /\
  Forall (fun r =>
            Ranking.firstChoice r + Ranking.secondChoice r +
            Ranking.thirdChoice r <= length data)
         (prepareRankingData data).
Proof.
  unfold prepareRankingData. rewrite fold_countRanking. cbv zeta.
  split; [reflexivity|].
  repeat constructor; cbn; apply countRank_total.
Qed.

(** ** The best and the most preferred handle *)

Lemma leb_not_nan (x y : number) :
  (x <=? y)%float = true -> is_nan x = false /\ is_nan y = false.
Proof.
  intros H. split.
  - destruct (is_nan x) eqn:N; [|reflexivity].
    rewrite (is_nan_eq x N), FloatAxioms.leb_spec in H. discriminate.
  - destruct (is_nan y) eqn:N; [|reflexivity].
    rewrite (is_nan_eq y N), FloatAxioms.leb_spec in H.
    change (Prim2SF nan) with S754_nan in H.
    destruct (Prim2SF x) as [[]|[]| |[] m e]; discriminate.
Qed.

Lemma leb_ltb_trans (x y z : number) :
  (x <=? y)%float = true -> (y <? z)%float = true -> (x <? z)%float = true.
Proof.
  intros Hxy Hyz.
  destruct (leb_not_nan _ _ Hxy) as [Nx _].
  destruct (ltb_is_nan _ _ Hyz) as [_ Nz].
  destruct (x <? z)%float eqn:E; [reflexivity|].
  pose proof (ltb_false_leb x z Nx Nz E) as Hzx.
  rewrite (leb_not_ltb _ _ (leb_trans z x y Hzx Hxy)) in Hyz. discriminate.
Qed.

Lemma fold_higherScore (l : list (string * number)) (init : string * number) :
  is_nan (snd init) = false ->
  let best := fold_left higherScore l init in
  is_nan (snd best) = false /\
  (best = init \/ (In best l /\ (snd init <? snd best)%float = true)) /\
  (snd init <=? snd best)%float = true /\
  Forall (fun e => (snd best <? snd e)%float = false) l.
Proof.
  revert init. induction l as [|x l IH]; intros init Ninit; cbn [fold_left].
  - cbv zeta. split; [exact Ninit|]. split; [left; reflexivity|].
    split; [apply leb_refl, Ninit|constructor].
  - set (b1 := higherScore init x).
    assert (Hb1 : is_nan (snd b1) = false /\
                  (b1 = init \/ (b1 = x /\ (snd init <? snd x)%float = true)) /\
                  (snd init <=? snd b1)%float = true /\
                  (snd b1 <? snd x)%float = false).
    { subst b1. unfold higherScore.
      destruct (snd init <? snd x)%float eqn:L.
      - destruct (ltb_is_nan _ _ L) as [_ Nx].
        split; [exact Nx|]. split; [right; split; reflexivity|].
        split; [apply ltb_leb, L|apply leb_not_ltb, leb_refl, Nx].
      - split; [exact Ninit|]. split; [left; reflexivity|].
        split; [apply leb_refl, Ninit|exact L]. }
    destruct Hb1 as (Nb1 & Hcase & Hle1 & Hx).
    destruct (IH b1 Nb1) as (Nbest & Hin & Hle & Hall).
    set (best := fold_left higherScore l b1) in *.
    split; [exact Nbest|]. split; [|split].
    + destruct Hin as [Hin | [Hin Hlt]].
      * rewrite Hin. destruct Hcase as [-> | [-> Hlt]];
          [left; reflexivity|right; split; [left; reflexivity|exact Hlt]].
      * right. split; [right; exact Hin|].
        apply (leb_ltb_trans _ _ _ Hle1 Hlt).
    + apply (leb_trans _ _ _ Hle1 Hle).
    + constructor; [|exact Hall].
      destruct (is_nan (snd x)) eqn:Nx; [apply ltb_nan_r, Nx|].
      apply leb_not_ltb, (leb_trans _ (snd b1)); [|exact Hle].
      apply ltb_false_leb; assumption.
Qed.

Lemma lookupHandle_entries {A : Type} (o : PerHandle A) (e : string * A) :
  In e (entries o) -> lookupHandle o (fst e) = Some (snd e) /\ fst e <> "".
Proof.
  unfold entries. intros [<- | [<- | [<- | []]]]; split; try reflexivity;
    discriminate.
Qed.

(** [bestHandle] is "Circle Undergrip Handle" while there are no scores.
    With scores it is the empty name exactly when no average is above 0;
    otherwise it names a handle whose average is above 0 and below no
    other average. *)
Theorem bestHandle_spec {M : Type} (metricsData : M)
  (scores : AggregateScores) :
  let h := bestHandle metricsData (Some scores) in
  bestHandle metricsData None = "Circle Undergrip Handle" /\
  (h = "" <->
   Forall (fun e => (0 <? snd e)%float = false) (entries (average scores))) /\
  (h <> "" ->
   exists s,
     lookupHandle (average scores) h = Some s /\ (0 <? s)%float = true /\
     Forall (fun e => (s <? snd e)%float = false) (entries (average scores))).
Proof.
  cbv zeta. split; [reflexivity|]. unfold bestHandle, bestScore.
  destruct (fold_higherScore (entries (average scores)) ("", 0%float) eq_refl)
    as (_ & Hcase & _ & Hall).
  set (best := fold_left higherScore _ _) in *.
  destruct Hcase as [Hinit | [Hin Hlt]].
  - rewrite Hinit in *. cbn [fst snd] in *. split; [split; [|reflexivity]|].
    + intros _. exact Hall.
    + intros H. contradiction H. reflexivity.
  - destruct (lookupHandle_entries _ _ Hin) as [Hlook Hname].
    cbn [snd] in Hlt. split; [split|].
    + intros H. contradiction.
    + intros H. rewrite List.Forall_forall in H.
      specialize (H best Hin). exfalso. apply diff_true_false.
      rewrite <- Hlt. exact H.
    + intros _. exists (snd best). split; [exact Hlook|].
      split; [exact Hlt|exact Hall].
Qed.

Lemma mostPreferred_spec (counts : PerHandle nat) :
  let best := mostPreferred counts in
  (best = ("", 0) /\ tallyTotal counts = 0 \/
   lookupHandle counts (fst best) = Some (snd best) /\ 0 < snd best) /\
  Forall (fun e => snd e <= snd best) (entries counts) /\
  tallyTotal counts <= 3 * snd best.
Proof.
  destruct counts as [r c ci].
  unfold mostPreferred, entries, higherCount, tallyTotal, lookupHandle.
  cbn [fold_left fst snd rectangle_handle curved_handle circle_handle].
  destruct (Nat.ltb_spec 0 r) as [Hr|Hr]; cbn [fst snd];
    match goal with
    | |- context [(?a <? c)%nat] => destruct (Nat.ltb_spec a c) as [Hc|Hc]
    end; cbn [fst snd];
    match goal with
    | |- context [(?a <? ci)%nat] => destruct (Nat.ltb_spec a ci) as [Hci|Hci]
    end; cbn [fst snd];
    (split; [first [right; split; [reflexivity|lia]
                   |left; split; [reflexivity|lia]]|]);
    (split; [repeat constructor; cbn; lia|lia]).
Qed.

(** When the aggregate scores are computed, the most preferred handle is
    one of the three handles, its count is the largest of the three, and
    it is the top choice of at least a third of the rows. *)
Theorem mostPreferred_of_scores (data : list Row) (scores : AggregateScores) :
  calculateAggregateScores data = Ok scores ->
  let best := mostPreferred (topChoiceCounts scores) in
  In best (entries (topChoiceCounts scores)) /\
  0 < snd best /\
  Forall (fun e => snd e <= snd best) (entries (topChoiceCounts scores)) /\
  length data <= 3 * snd best.
Proof.
  intros Hscores. cbv zeta.
  assert (Hdata : data <> []).
  { intros ->. discriminate. }
  destruct (calculateAggregateScores_returns data scores Hscores) as [Hc _].
  pose proof (tallyTopChoices_total data) as Htotal. rewrite <- Hc in Htotal.
  destruct (mostPreferred_spec (topChoiceCounts scores))
    as ([[_ Hzero] | [Hlook Hpos]] & Hmax & Hthird);
    set (best := mostPreferred (topChoiceCounts scores)) in *.
  - destruct data; [congruence|cbn in Htotal; lia].
  - split; [|split; [exact Hpos|split; [exact Hmax|lia]]].
    unfold lookupHandle in Hlook. unfold entries. destruct best as [h c].
    cbn [fst snd] in *.
    destruct (String.eqb_spec h "Rectangle Handle") as [-> |];
      [injection Hlook as <-; left; reflexivity|].
    destruct (String.eqb_spec h "Curved Handle") as [-> |];
      [injection Hlook as <-; right; left; reflexivity|].
    destruct (String.eqb_spec h "Circle Undergrip Handle") as [-> |];
      [injection Hlook as <-; right; right; left; reflexivity|discriminate].
Qed.

Lemma mostPreferred_of_scores_witness :
  exists scores,
    calculateAggregateScores [row_tie; row_comment; row_fives_one_attempt] =
      Ok scores /\
    0 < snd (mostPreferred (topChoiceCounts scores)) /\
    3 <= 3 * snd (mostPreferred (topChoiceCounts scores)).
Proof.
  destruct (calculateAggregateScores
              [row_tie; row_comment; row_fives_one_attempt]) as [r|e] eqn:E;
    [|vm_compute in E; discriminate].
  exists r. split; [reflexivity|].
  destruct (mostPreferred_of_scores _ r E) as (_ & Hpos & _ & Hthird).
  split; [exact Hpos|exact Hthird].
Defined.

(** ** The analysis of a metric and its notable differences *)

Lemma ltb_trans (x y z : number) :
  (x <? y)%float = true -> (y <? z)%float = true -> (x <? z)%float = true.
Proof. intros Hxy. apply leb_ltb_trans, ltb_leb, Hxy. Qed.

Lemma ltb_leb_trans (x y z : number) :
  (x <? y)%float = true -> (y <=? z)%float = true -> (x <? z)%float = true.
Proof.
  intros Hxy Hyz.
  destruct (ltb_is_nan _ _ Hxy) as [Nx _].
  destruct (leb_not_nan _ _ Hyz) as [_ Nz].
  destruct (x <? z)%float eqn:E; [reflexivity|].
  pose proof (ltb_false_leb x z Nx Nz E) as Hzx.
  rewrite (leb_not_ltb _ _ (leb_trans y z x Hyz Hzx)) in Hxy. discriminate.
Qed.

Lemma isSignificant_raw (tValue d : number) :
  isSignificant
    (Comparison.mk tValue (pValueOf tValue) d (interpretCohenD d)) =
  (2.0 <? Math.abs tValue)%float || negb (d <? 0.5)%float.
Proof.
  unfold isSignificant, pValueOf, interpretCohenD. cbn [Comparison.pValue
    Comparison.interpretation].
  destruct (2.7 <? Math.abs tValue)%float eqn:T27.
  - rewrite (ltb_trans 2.0 2.7 _ eq_refl T27)%float. reflexivity.
  - destruct (2.0 <? Math.abs tValue)%float; [reflexivity|].
    destruct (d <? 0.2)%float eqn:D2.
    + rewrite (ltb_leb_trans d 0.2 0.5 D2 eq_refl)%float. reflexivity.
    + destruct (d <? 0.5)%float; [reflexivity|].
      destruct (d <? 0.8)%float; reflexivity.
Qed.

Lemma analyzeMetric_ok (metric : Metric.t) :
  exists r,
    analyzeMetric metric = Ok r /\
    MetricResult.metric r = Metric.name metric /\
    Summary.n (MetricResult.rectangle r) = length (Metric.rectangle metric) /\
    Summary.n (MetricResult.curved r) = length (Metric.curved metric) /\
    Summary.n (MetricResult.circle r) = length (Metric.circle metric) /\
    Forall (fun c =>
              Comparison.pValue c = pValueOf (Comparison.tValue c) /\
              Comparison.interpretation c =
                interpretCohenD (Comparison.effectSize c))
      [Comparisons.rectVsCurved (MetricResult.comparisons r);
       Comparisons.rectVsCircle (MetricResult.comparisons r);
       Comparisons.curvedVsCircle (MetricResult.comparisons r)].
Proof.
  destruct metric as [name rect curv circ]. unfold analyzeMetric.
  cbn [Metric.name Metric.rectangle Metric.curved Metric.circle].
  destruct (calculateStats_returns rect) as (s1 & -> & Hn1).
  destruct (calculateStats_returns curv) as (s2 & -> & Hn2).
  destruct (calculateStats_returns circ) as (s3 & -> & Hn3).
  destruct (tTest_returns rect curv) as (t1 & -> & Hp1).
  destruct (tTest_returns rect circ) as (t2 & -> & Hp2).
  destruct (tTest_returns curv circ) as (t3 & -> & Hp3).
  destruct (cohenD_returns rect curv) as (d1 & ->).
  destruct (cohenD_returns rect circ) as (d2 & ->).
  destruct (cohenD_returns curv circ) as (d3 & ->).
  cbn [mbind result_bind]. eexists. split; [reflexivity|].
  cbn. repeat split; try assumption. repeat constructor; assumption.
Qed.

(** The analysis of a metric never throws: it returns the name, the three
    sample sizes, and for each pair of handles the p-value bucket of its
    t-value and the label of its effect size. *)
Theorem analyzeMetric_returns (metric : Metric.t) :
  exists r,
    analyzeMetric metric = Ok r /\
    MetricResult.metric r = Metric.name metric /\
    Summary.n (MetricResult.rectangle r) = length (Metric.rectangle metric) /\
    Summary.n (MetricResult.curved r) = length (Metric.curved metric) /\
    Summary.n (MetricResult.circle r) = length (Metric.circle metric) /\
    Forall (fun c =>
              Comparison.pValue c = pValueOf (Comparison.tValue c) /\
              Comparison.interpretation c =
                interpretCohenD (Comparison.effectSize c))
      [Comparisons.rectVsCurved (MetricResult.comparisons r);
       Comparisons.rectVsCircle (MetricResult.comparisons r);
       Comparisons.curvedVsCircle (MetricResult.comparisons r)].
Proof.
  destruct (analyzeMetric_ok metric) as (r & Hr). exists r. exact Hr.
Qed.

Lemma notable_raw (arr1 arr2 : list number) (test : TTest) (d : number) :
  tTest arr1 arr2 = Ok test -> cohenD arr1 arr2 = Ok d ->
  pValue test = pValueOf (t test) ->
  isSignificant
    (Comparison.mk (t test) (pValue test) d (interpretCohenD d)) =
  notable arr1 arr2.
Proof.
  intros Ht Hd Hp. unfold notable. rewrite Ht, Hd, Hp.
  apply isSignificant_raw.
Qed.

Lemma significantComparisons_notable (metric : Metric.t)
  (r : MetricResult.t) :
  analyzeMetric metric = Ok r ->
  map (fun e => (Significant.metricName e, Significant.comparison e))
      (significantComparisons r) =
  notablePairs metric.
Proof.
  destruct metric as [name rect curv circ]. unfold analyzeMetric.
  cbn [Metric.name Metric.rectangle Metric.curved Metric.circle].
  destruct (calculateStats_returns rect) as (s1 & -> & _).
  destruct (calculateStats_returns curv) as (s2 & -> & _).
  destruct (calculateStats_returns circ) as (s3 & -> & _).
  destruct (tTest_returns rect curv) as (t1 & Ht1 & Hp1).
  destruct (tTest_returns rect circ) as (t2 & Ht2 & Hp2).
  destruct (tTest_returns curv circ) as (t3 & Ht3 & Hp3).
  destruct (cohenD_returns rect curv) as (d1 & Hd1).
  destruct (cohenD_returns rect circ) as (d2 & Hd2).
  destruct (cohenD_returns curv circ) as (d3 & Hd3).
  rewrite Ht1, Ht2, Ht3, Hd1, Hd2, Hd3. cbn [mbind result_bind].
  intros [= <-].
  unfold significantComparisons, significantPair, notablePairs.
  cbn [MetricResult.metric MetricResult.comparisons MetricResult.rectangle
       MetricResult.curved MetricResult.circle Comparisons.rectVsCurved
       Comparisons.rectVsCircle Comparisons.curvedVsCircle
       Metric.name Metric.rectangle Metric.curved Metric.circle].
  rewrite (notable_raw rect curv t1 d1 Ht1 Hd1 Hp1),
    (notable_raw rect circ t2 d2 Ht2 Hd2 Hp2),
    (notable_raw curv circ t3 d3 Ht3 Hd3 Hp3).
  destruct (notable rect curv), (notable rect circ), (notable curv circ);
    reflexivity.
Qed.

Lemma analysisResults_returns (metrics : list Metric.t) :
  exists results,
    analysisResults metrics = Ok results /\
    Forall2 (fun metric r => analyzeMetric metric = Ok r) metrics results.
Proof.
  unfold analysisResults. induction metrics as [|metric metrics IH].
  - exists []. split; [reflexivity|constructor].
  - destruct (analyzeMetric_ok metric) as (r & Hr & _).
    destruct IH as (results & Hresults & Hall).
    exists (r :: results). split; [|constructor; assumption].
    cbn [mapM]. rewrite Hr. cbn [mbind result_bind]. rewrite Hresults.
    reflexivity.
Qed.

(** The analysis of the metrics never throws, and the notable differences
    found in its results are, in order, the pairs of samples with |t|
    above 2 or with Cohen's d not below 0.5; there are at most three for
    each metric, and none before the analysis has run. *)
Theorem findSignificantDifferences_notable (metrics : list Metric.t) :
  findSignificantDifferences None = [] /\
  exists results,
    analysisResults metrics = Ok results /\
    length results = length metrics /\
    map (fun e => (Significant.metricName e, Significant.comparison e))
        (findSignificantDifferences (Some results)) =
      flat_map notablePairs metrics /\
    length (findSignificantDifferences (Some results)) <= 3 * length metrics.
Proof.
  split; [reflexivity|].
  destruct (analysisResults_returns metrics) as (results & Hresults & Hall).
  exists results. split; [exact Hresults|].
  assert (Hmap : map (fun e => (Significant.metricName e,
                                Significant.comparison e))
                   (findSignificantDifferences (Some results)) =
                 flat_map notablePairs metrics).
  { unfold findSignificantDifferences. clear Hresults.
    induction Hall as [|metric r metrics results Hr _ IH]; [reflexivity|].
    cbn [map concat flat_map]. rewrite map_app, IH.
    rewrite (significantComparisons_notable metric r Hr). reflexivity. }
  split; [symmetry; apply (Forall2_length _ _ _ Hall)|].
  split; [exact Hmap|].
  rewrite <- (length_map (fun e => (Significant.metricName e,
                                    Significant.comparison e))), Hmap.
  clear. induction metrics as [|metric metrics IH]; [cbn; lia|].
  cbn [flat_map length]. rewrite length_app.
  assert (length (notablePairs metric) <= 3); [|lia].
  unfold notablePairs. rewrite length_map.
  destruct (notable _ _), (notable _ _), (notable _ _); cbn; lia.
Qed.

Lemma cohenD_single (x y : number) : cohenD [x] [y] = Ok nan.
Proof.
  unfold cohenD. cbn [length Nat.eqb orb].
  rewrite !mean_cons, !std_cons, !variance_single.
  destruct (is_nan (sum_sq_dev [x])), (is_nan (sum_sq_dev [y])); cbn;
    rewrite div_nan; reflexivity.
Qed.

(** When each handle has a single observation for a metric, all three
    pairs are reported as notable, each with the effect "Large": Cohen's d
    of two single observations is NaN. *)
Theorem single_observations_notable (name : string) (x y z : number) :
  exists r,
    analyzeMetric (Metric.mk name [x] [y] [z]) = Ok r /\
    map (fun e => (Significant.comparison e, Significant.effect e))
        (significantComparisons r) =
    [("Rectangle vs Curved", "Large"); ("Rectangle vs Circle", "Large");
     ("Curved vs Circle", "Large")].
Proof.
  destruct (analyzeMetric_ok (Metric.mk name [x] [y] [z])) as (r & Hr & _).
  exists r. split; [exact Hr|]. revert Hr. unfold analyzeMetric.
  cbn [Metric.name Metric.rectangle Metric.curved Metric.circle].
  destruct (calculateStats_returns [x]) as (s1 & -> & _).
  destruct (calculateStats_returns [y]) as (s2 & -> & _).
  destruct (calculateStats_returns [z]) as (s3 & -> & _).
  destruct (tTest_returns [x] [y]) as (t1 & -> & _).
  destruct (tTest_returns [x] [z]) as (t2 & -> & _).
  destruct (tTest_returns [y] [z]) as (t3 & -> & _).
  rewrite !cohenD_single.
  cbn [mbind result_bind]. intros [= <-].
  unfold significantComparisons, significantPair, isSignificant.
  cbn [MetricResult.metric MetricResult.comparisons MetricResult.rectangle
       MetricResult.curved MetricResult.circle Comparisons.rectVsCurved
       Comparisons.rectVsCircle Comparisons.curvedVsCircle
       Comparison.interpretation Comparison.pValue].
  change (interpretCohenD nan) with "Large".
  change (String.eqb "Large" "Large") with true.
  change (String.eqb "Large" "Medium") with false.
  rewrite !orb_true_r. reflexivity.
Qed.

(** ** Insights *)

Lemma bestScore_cases (average : PerHandle number) :
  let best := bestScore average in
  (best = ("", 0%float) /\
   Forall (fun e => (0 <? snd e)%float = false) (entries average)) \/
  (In best (entries average) /\ (0 <? snd best)%float = true).
Proof.
  cbv zeta. unfold bestScore.
  destruct (fold_higherScore (entries average) ("", 0%float) eq_refl)
    as (_ & Hcase & _ & Hall).
  destruct Hcase as [Hinit | [Hin Hlt]].
  - left. split; [exact Hinit|]. rewrite Hinit in Hall. exact Hall.
  - right. split; [exact Hin|exact Hlt].
Qed.

(** Before the three results exist there is no insight.  With them,
    [generateInsights] throws a [TypeError] exactly when no average score
    is above 0: the best handle is then the empty name, whose average is
    [undefined]. *)
Theorem generateInsights_throws
  (results : list MetricResult.t) (scores : AggregateScores)
  (breakdown : list (string * list (string * Breakdown.t)))
  (data : list Row) :
  (generateInsights (Some results) (Some scores) (Some breakdown) data =
     ThrowsTypeError <->
   Forall (fun e => (0 <? snd e)%float = false) (entries (average scores))) /\
  (forall a d, generateInsights None a d data = Returns []) /\
  (forall r d, generateInsights r None d data = Returns []) /\
  (forall r a, generateInsights r a None data = Returns []).
Proof.
  split; [|split; [|split]].
  - unfold generateInsights.
    destruct (bestScore_cases (average scores)) as [[Hbest Hnone] | [Hin Hpos]].
    + rewrite Hbest. cbn [fst lookupHandle String.eqb].
      split; [intros _; exact Hnone|reflexivity].
    + destruct (lookupHandle_entries _ _ Hin) as [-> _]. split.
      * discriminate.
      * intros H. rewrite List.Forall_forall in H. specialize (H _ Hin).
        exfalso. apply diff_true_false. rewrite <- Hpos. exact H.
  - reflexivity.
  - intros [r|] d; reflexivity.
  - intros [r|] [a|]; reflexivity.
Qed.

(** When [generateInsights] returns insights they are, in this order:
    "overall-best", "most-preferred", "significant-differences" if there
    is a notable difference (with all of them as details),
    "demographic-insight" if a group prefers a handle, and
    "improvement-area"; so there are three to five of them. *)
Theorem generateInsights_keys
  (results : list MetricResult.t) (scores : AggregateScores)
  (breakdown : list (string * list (string * Breakdown.t)))
  (data : list Row) (insights : list Insight.t) :
  generateInsights (Some results) (Some scores) (Some breakdown) data =
    Returns insights ->
  let notable := findSignificantDifferences (Some results) in
  map Insight.key insights =
    (["overall-best"; "most-preferred"] ++
     (if (0 <? length notable)%nat then ["significant-differences"] else []) ++
     (if (0 <? length (demographicInsights breakdown))%nat
      then ["demographic-insight"] else []) ++
     ["improvement-area"])%list /\
  map Insight.details insights =
    ([None; None] ++
     (if (0 <? length notable)%nat then [Some notable] else []) ++
     (if (0 <? length (demographicInsights breakdown))%nat
      then [None] else []) ++
     [None])%list /\
  3 <= length insights <= 5.
Proof.
  unfold generateInsights, findSignificantDifferences.
  destruct (lookupHandle (average scores) _) as [bestAverage|];
    [|discriminate].
  cbv zeta. intros [= <-].
  destruct (0 <? length (concat (map significantComparisons results)))%nat;
    destruct (0 <? length (demographicInsights breakdown))%nat;
    cbn [map app Insight.key Insight.details length];
    (split; [reflexivity|split; [reflexivity|lia]]).
Qed.

Lemma generateInsights_keys_witness :
  exists insights,
    generateInsights (Some sample_results) (Some sample_scores)
      (Some sample_breakdown) sample_rows = Returns insights /\
    map Insight.key insights =
      ["overall-best"; "most-preferred"; "significant-differences";
       "demographic-insight"; "improvement-area"].
Proof.
  destruct (generateInsights (Some sample_results) (Some sample_scores)
              (Some sample_breakdown) sample_rows) as [insights|] eqn:E;
    [|vm_compute in E; discriminate].
  exists insights. split; [reflexivity|].
  destruct (generateInsights_keys _ _ _ _ _ E) as [Hkeys _].
  rewrite Hkeys. reflexivity.
Defined.

Lemma fold_lowerRank (handleType : string) (l : list (string * Breakdown.t))
  (init : string * number) :
  let best := fold_left (lowerRank handleType) l init in
  best = init \/ (snd best <? snd init)%float = true.
Proof.
  revert init. induction l as [|x l IH]; intros init; cbn [fold_left].
  - left. reflexivity.
  - cbv zeta. destruct (IH (lowerRank handleType init x)) as [-> | Hlt].
    + unfold lowerRank. destruct (lookupHandle _ _) as [rank|];
        [|left; reflexivity].
      destruct (rank <? snd init)%float eqn:L;
        [right; exact L|left; reflexivity].
    + revert Hlt. set (best := fold_left _ _ _). unfold lowerRank.
      destruct (lookupHandle _ _) as [rank|]; [|intros Hlt; right; exact Hlt].
      destruct (rank <? snd init)%float eqn:L;
        [|intros Hlt; right; exact Hlt].
      cbn [snd]. intros Hlt. right. apply (ltb_trans _ _ _ Hlt L).
Qed.

Lemma demographicInsights_rank
  (breakdown : list (string * list (string * Breakdown.t))) :
  Forall (fun i => (DemographicInsight.rank i <? 5)%float = true)
         (demographicInsights breakdown).
Proof.
  unfold demographicInsights. apply List.Forall_flat_map.
  apply List.Forall_forall. intros [factor groups] _.
  destruct (1 <? length groups)%nat; [|constructor].
  apply List.Forall_flat_map. apply List.Forall_forall. intros handleType _.
  cbv zeta.
  destruct (fold_lowerRank handleType groups ("", 5%float)) as [-> | Hlt].
  - constructor.
  - destruct (negb _); constructor; [exact Hlt|constructor].
Qed.

Lemma fold_strongerInsight (l : list DemographicInsight.t)
  (init : option DemographicInsight.t * number) :
  is_nan (snd init) = false ->
  let strongest := fold_left strongerInsight l init in
  is_nan (snd strongest) = false /\
  (strongest = init \/
   exists i, In i l /\ strongest = (Some i, DemographicInsight.rank i) /\
             (DemographicInsight.rank i <? snd init)%float = true) /\
  (snd strongest <=? snd init)%float = true /\
  Forall (fun j => (DemographicInsight.rank j <? snd strongest)%float = false)
         l.
Proof.
  revert init. induction l as [|x l IH]; intros init Ninit; cbn [fold_left].
  - cbv zeta. split; [exact Ninit|]. split; [left; reflexivity|].
    split; [apply leb_refl, Ninit|constructor].
  - set (b1 := strongerInsight init x).
    assert (Hb1 : is_nan (snd b1) = false /\
                  (b1 = init \/
                   (b1 = (Some x, DemographicInsight.rank x) /\
                    (DemographicInsight.rank x <? snd init)%float = true)) /\
                  (snd b1 <=? snd init)%float = true /\
                  (DemographicInsight.rank x <? snd b1)%float = false).
    { subst b1. unfold strongerInsight.
      destruct (DemographicInsight.rank x <? snd init)%float eqn:L.
      - destruct (ltb_is_nan _ _ L) as [Nx _]. cbn [snd].
        split; [exact Nx|]. split; [right; split; reflexivity|].
        split; [apply ltb_leb, L|apply leb_not_ltb, leb_refl, Nx].
      - split; [exact Ninit|]. split; [left; reflexivity|].
        split; [apply leb_refl, Ninit|exact L]. }
    destruct Hb1 as (Nb1 & Hcase & Hle1 & Hx).
    destruct (IH b1 Nb1) as (Nbest & Hin & Hle & Hall).
    set (best := fold_left strongerInsight l b1) in *.
    split; [exact Nbest|]. split; [|split].
    + destruct Hin as [Hin | (i & Hi & Hbest & Hlt)].
      * rewrite Hin. destruct Hcase as [-> | [-> Hlt]]; [left; reflexivity|].
        right. exists x. split; [left; reflexivity|].
        split; [reflexivity|exact Hlt].
      * right. exists i. split; [right; exact Hi|]. split; [exact Hbest|].
        apply (ltb_leb_trans _ _ _ Hlt Hle1).
    + apply (leb_trans _ _ _ Hle Hle1).
    + constructor; [|exact Hall].
      destruct (is_nan (DemographicInsight.rank x)) eqn:Nx.
      * rewrite (is_nan_eq _ Nx). rewrite FloatAxioms.ltb_spec. reflexivity.
      * destruct (DemographicInsight.rank x <? snd best)%float eqn:L;
          [|reflexivity].
        rewrite (ltb_leb_trans _ _ _ L Hle) in Hx. discriminate.
Qed.

(** When some group prefers a handle, the group and the handle named by
    the demographic insight are those of a candidate with the lowest mean
    rank, which is below 5: the insight never reads [undefined]. *)
Theorem demographic_insight_strongest
  (breakdown : list (string * list (string * Breakdown.t))) :
  demographicInsights breakdown <> [] ->
  exists i,
    fst (fold_left strongerInsight (demographicInsights breakdown)
           (None, 5%float)) = Some i /\
    In i (demographicInsights breakdown) /\
    (DemographicInsight.rank i <? 5)%float = true /\
    Forall (fun j =>
              (DemographicInsight.rank j <? DemographicInsight.rank i)%float
              = false)
           (demographicInsights breakdown).
Proof.
  intros Hne. pose proof (demographicInsights_rank breakdown) as Hranks.
  destruct (fold_strongerInsight (demographicInsights breakdown)
              (None, 5%float) eq_refl) as (_ & Hcase & _ & Hall).
  destruct Hcase as [Hinit | (i & Hi & Hbest & Hlt)].
  - rewrite Hinit in Hall. cbn [snd] in Hall.
    destruct (demographicInsights breakdown) as [|j l]; [congruence|].
    apply Forall_cons in Hranks as [Hj _]. apply Forall_cons in Hall as [Hj' _].
    exfalso. apply diff_true_false. rewrite <- Hj. exact Hj'.
  - exists i. rewrite Hbest in *. cbn [fst snd] in *.
    split; [reflexivity|]. split; [exact Hi|]. split; [exact Hlt|exact Hall].
Qed.

Lemma demographic_insight_strongest_witness :
  exists i,
    fst (fold_left strongerInsight (demographicInsights sample_breakdown)
           (None, 5%float)) = Some i /\
    DemographicInsight.group i = "25-34" /\
    DemographicInsight.handle i = "Curved Handle" /\
    (DemographicInsight.rank i <? 5)%float = true.
Proof.
  destruct (demographic_insight_strongest sample_breakdown)
    as (i & Hi & _ & Hrank & _); [discriminate|].
  exists i. split; [exact Hi|]. vm_compute in Hi. injection Hi as <-.
  split; [reflexivity|]. split; [reflexivity|exact Hrank].
Defined.

Lemma fold_weakerMetric_none (l : list (string * (string * number)))
  (init : option (string * string) * number) :
  Forall (fun m => (snd (snd m) <? snd init)%float = false) l ->
  fold_left weakerMetric l init = init.
Proof.
  induction 1 as [|m l Hm _ IH]; cbn [fold_left]; [reflexivity|].
  replace (weakerMetric init m) with init; [exact IH|].
  unfold weakerMetric. destruct (_ <? _)%float eqn:E; [|reflexivity].
  discriminate Hm.
Qed.

(** When no metric's top mean is below 5 (there is no metric, or every
    top mean is 5 or more, or NaN), the last insight names the metric
    [undefined] with a highest score of 5.0. *)
Theorem improvement_area_undefined
  (results : list MetricResult.t) (scores : AggregateScores)
  (breakdown : list (string * list (string * Breakdown.t)))
  (data : list Row) (insights : list Insight.t) :
  Forall (fun result =>
            (snd (snd (topHandleMetric result)) <? 5)%float = false)
         results ->
  generateInsights (Some results) (Some scores) (Some breakdown) data =
    Returns insights ->
  last insights =
    Some (Insight.mk "improvement-area" "Key Improvement Area"
            ("Even the top-performing handles could be improved in the "
             ++ "undefined metric, where the highest score was only 5.0/5.")
            None).
Proof.
  intros Htop. unfold generateInsights.
  destruct (lookupHandle (average scores) _) as [bestAverage|]; [|discriminate].
  cbv zeta. intros [= <-].
  rewrite (fold_weakerMetric_none (map topHandleMetric results) (None, 5%float))
    by (apply List.Forall_map; exact Htop).
  destruct (0 <? length (concat (map significantComparisons results)))%nat;
    destruct (0 <? length (demographicInsights breakdown))%nat;
    reflexivity.
Qed.

Lemma improvement_area_undefined_witness :
  exists insights,
    generateInsights (Some sample_perfect_results) (Some sample_scores)
      (Some sample_breakdown) sample_rows = Returns insights /\
    option_map Insight.description (last insights) =
      Some ("Even the top-performing handles could be improved in the "
            ++ "undefined metric, where the highest score was only 5.0/5.").
Proof.
  destruct (generateInsights (Some sample_perfect_results) (Some sample_scores)
              (Some sample_breakdown) sample_rows) as [insights|] eqn:E;
    [|vm_compute in E; discriminate].
  exists insights. split; [reflexivity|].
  rewrite (improvement_area_undefined sample_perfect_results sample_scores
             sample_breakdown sample_rows insights);
    [reflexivity| |exact E].
  repeat constructor.
Defined.
